(** * Encryption and decryption properties of parquet/properties.h

    A shallow embedding of the classes [ColumnEncryptionProperties],
    [FileDecryptionProperties] and [FileEncryptionProperties] of
    src/parquet/properties.h, and the properties of their key resolution.

    Conventions of the embedding:
    - [std::string] is a [string] (a sequence of 8-bit characters);
    - a [std::shared_ptr<EncryptionProperties>] is an optional location of a
      store ([None] is [nullptr]); two pointers are the same object when they
      are the same location;
    - a method that can throw returns an [outcome]; a method that changes
      [*this] returns the new object next to the outcome, so that the state
      left behind by an exception is visible;
    - [std::map<std::string, std::string>] is a [gmap string string]. *)

From Stdlib Require Import ZArith String Ascii List Lia.
From stdpp Require Import base option list gmap strings fin_maps.

Local Open Scope string_scope.

(** ** Outcomes of a call *)

(** The exceptions the code throws: [ParquetException] with its message, and
    the [std::out_of_range] of [std::map::at]. *)
Inductive exception : Type :=
| ParquetException (what : string)
| std_out_of_range.

(** A call returns, throws, stops the process on a failed [DCHECK], or has no
    defined behaviour (a null pointer is dereferenced). *)
Inductive outcome (A : Type) : Type :=
| Returns (a : A)
| Throws (e : exception)
| CheckFailed
| Undefined.

Arguments Returns {A} a.
Arguments Throws {A} e.
Arguments CheckFailed {A}.
Arguments Undefined {A}.

Module OutcomeMonad.

Definition bind {A B : Type} (m : outcome A) (k : A -> outcome B) : outcome B :=
  match m with
  | Returns a => k a
  | Throws e => Throws e
  | CheckFailed => CheckFailed
  | Undefined => Undefined
  end.

Declare Scope outcome_scope.
Delimit Scope outcome_scope with outcome.

Notation "x <- m ;; k" := (bind m (fun x => k))
  (at level 100, m at next level, right associativity) : outcome_scope.
Notation "m ;;; k" := (bind m (fun _ => k))
  (at level 100, right associativity) : outcome_scope.

End OutcomeMonad.

Import OutcomeMonad.

Definition throws_ParquetException {A : Type} (o : outcome A) : Prop :=
  exists what, o = Throws (ParquetException what).

(** ** Strings *)

(** [std::string::empty]. *)
Definition empty (s : string) : bool :=
  match s with
  | EmptyString => true
  | String _ _ => false
  end.

(** [a.compare(b)]: negative, zero or positive; zero exactly for equal
    strings. *)
Definition compare (a b : string) : Z :=
  match String.compare a b with
  | Eq => 0
  | Lt => -1
  | Gt => 1
  end%Z.

(** ** Debug assertions *)

(** [DCHECK] comes from parquet/util/logging.h, which is not part of this
    file: it is a debug assertion, checked in a debug build and compiled out
    when [NDEBUG] is defined.  The build is a parameter of every function
    that asserts. *)
Inductive build : Type := Debug | NDEBUG.

Definition DCHECK (b : build) (condition : bool) : outcome unit :=
  match b with
  | Debug => if condition then Returns tt else CheckFailed
  | NDEBUG => Returns tt
  end.

(** [key.length() == 16 || key.length() == 24 || key.length() == 32] *)
Definition key_length_ok (key : string) : bool :=
  (String.length key =? 16)%nat || (String.length key =? 24)%nat
  || (String.length key =? 32)%nat.

(** ** Values declared outside this file *)

(** Modelled from the spec: the column path identifier, "an external value
    type providing a canonical dotted-string form (ToDotString) used as the
    map key throughout".  [schema::ColumnPath] is declared in
    parquet/schema.h; a path is built from its segments and [ToDotString]
    joins them with dots. *)
Module ColumnPath.

Definition t : Type := list string.

Fixpoint ToDotString (path : t) : string :=
  match path with
  | [] => ""
  | [segment] => segment
  | segment :: rest => segment ++ "." ++ ToDotString rest
  end.

End ColumnPath.

(** Modelled from the spec: the algorithm identifier of the key material, an
    enum.  [Encryption::type] is declared outside this file, which names its
    value [AES_GCM_V1]. *)
Module Encryption.

Inductive type : Type := AES_GCM_V1 | AES_GCM_CTR_V1.

End Encryption.

(** Modelled from the spec: EncryptionKeyMaterial, "a value pairing an
    algorithm identifier with a secret key, optional key-metadata and an
    authenticated-associated-data (AAD) value".  [EncryptionProperties] is
    declared in parquet/encryption.h; this file uses its constructor, the
    accessors [algorithm()], [key()], [aad()] and the setter [aad(aad)]. *)
Module EncryptionProperties.

Record t : Type := Build {
  algorithm : Encryption.type;
  key : string;
  key_metadata : string;
  aad : string
}.

Definition set_aad (new_aad : string) (this : t) : t :=
  Build (algorithm this) (key this) (key_metadata this) new_aad.

End EncryptionProperties.

(** The objects behind [std::shared_ptr<EncryptionProperties>]. *)
Abbreviation store := (gmap nat EncryptionProperties.t).

(** A shared pointer: a location, or [None] for [nullptr]. *)
Definition shared_ptr : Type := option nat.

Definition deref (h : store) (p : shared_ptr) : option EncryptionProperties.t :=
  match p with
  | Some l => h !! l
  | None => None
  end.

(** [new] and [std::make_shared]: the object is placed at a location that
    holds no object yet. *)
Definition alloc (h : store) (v : EncryptionProperties.t) : store * nat :=
  let l := fresh (dom h) in (<[l := v]> h, l).

(** Modelled from the spec: the KeyRetriever capability, "GetKey(metadata:
    byte-sequence) -> secret key", which fails when it cannot resolve the
    metadata.  [DecryptionKeyRetriever] is an abstract class declared in
    parquet/encryption.h; an implementation returns or throws. *)
Module DecryptionKeyRetriever.

Record t : Type := Build {
  GetKey : string -> outcome string
}.

End DecryptionKeyRetriever.

(** ** Key identifiers as metadata *)

(** [std::string(reinterpret_cast<char*>(&key_id), 4)] is the object
    representation of a 32-bit integer: its four bytes in the byte order of
    the machine. *)
Inductive byte_order : Type := LittleEndian | BigEndian.

Definition uint32 (z : Z) : Z := z mod 2 ^ 32.

Definition byte (z : Z) : ascii := ascii_of_N (Z.to_N (z mod 256)).

Definition object_bytes (bo : byte_order) (v : Z) : string :=
  let b0 := byte v in
  let b1 := byte (v / 2 ^ 8) in
  let b2 := byte (v / 2 ^ 16) in
  let b3 := byte (v / 2 ^ 24) in
  match bo with
  | LittleEndian => String b0 (String b1 (String b2 (String b3 "")))
  | BigEndian => String b3 (String b2 (String b1 (String b0 "")))
  end.

(** Reading the integer back from its object representation. *)
Definition value_of_bytes (bo : byte_order) (s : string) : option Z :=
  match s with
  | String c0 (String c1 (String c2 (String c3 ""))) =>
      let n (c : ascii) := Z.of_N (N_of_ascii c) in
      Some (match bo with
            | LittleEndian => n c0 + 2 ^ 8 * n c1 + 2 ^ 16 * n c2 + 2 ^ 24 * n c3
            | BigEndian => n c3 + 2 ^ 8 * n c2 + 2 ^ 16 * n c1 + 2 ^ 24 * n c0
            end)%Z
  | _ => None
  end.

(** ** ColumnEncryptionProperties *)

Module ColumnEncryptionProperties.

Record t : Type := Build {
  encrypt_ : bool;
  path_ : string;
  encrypted_with_footer_key_ : bool;
  key_ : string;
  key_metadata_ : string
}.

(** [ColumnEncryptionProperties(bool encrypt, std::string path)] *)
Definition new (encrypt : bool) (path : string) : t :=
  Build encrypt path encrypt "" "".

Definition encrypted (this : t) : bool := encrypt_ this.
Definition encrypted_with_footer_key (this : t) : bool :=
  encrypted_with_footer_key_ this.
Definition key (this : t) : string := key_ this.
Definition key_metadata (this : t) : string := key_metadata_ this.
Definition path (this : t) : string := path_ this.

(** [SetEncryptionKey(const std::string& key, const std::string&
    key_metadata)]: the object after the call, and the outcome. *)
Definition SetEncryptionKey (key key_metadata : string) (this : t)
  : t * outcome unit :=
  if negb (encrypt_ this) then
    (this, Throws (ParquetException
                     ("Setting key on unencrypted column: " ++ path_ this)))
  else if empty key then
    (this, Throws (ParquetException ("Null key for " ++ path_ this)))
  else
    (Build (encrypt_ this) (path_ this) false key key_metadata, Returns tt).

(** [SetEncryptionKey(const std::string& key, uint32_t key_id = 0)] *)
Definition SetEncryptionKey_id (bo : byte_order) (key : string) (key_id : Z)
                               (this : t) : t * outcome unit :=
  let key_id := uint32 key_id in
  let key_metadata := if (key_id =? 0)%Z then "" else object_bytes bo key_id in
  SetEncryptionKey key key_metadata this.

End ColumnEncryptionProperties.

(** ** FileDecryptionProperties *)

Module FileDecryptionProperties.

Record t : Type := Build {
  footer_key_ : string;
  aad_ : string;
  column_keys_ : gmap string string;
  key_retriever_ : option DecryptionKeyRetriever.t
}.

(** [FileDecryptionProperties(const std::string& footer_key)] *)
Definition new (b : build) (footer_key : string) : outcome t :=
  (DCHECK b (key_length_ok footer_key) ;;;
   Returns (Build footer_key "" ∅ None))%outcome.

(** [FileDecryptionProperties(const std::shared_ptr<DecryptionKeyRetriever>&
    key_retriever)]; the pointer may be null. *)
Definition new_retriever (key_retriever : option DecryptionKeyRetriever.t) : t :=
  Build "" "" ∅ key_retriever.

Definition SetAad (aad : string) (this : t) : t :=
  Build (footer_key_ this) aad (column_keys_ this) (key_retriever_ this).

(** [SetColumnKey(const std::vector<std::string>& paths, const std::string&
    key)] *)
Definition SetColumnKey (b : build) (paths : list string) (key : string)
                        (this : t) : outcome t :=
  (DCHECK b (key_length_ok key) ;;;
   let columnPath : ColumnPath.t := paths in
   Returns (Build (footer_key_ this) (aad_ this)
                  (<[ColumnPath.ToDotString columnPath := key]> (column_keys_ this))
                  (key_retriever_ this)))%outcome.

(** [SetColumnKey(const std::string& name, const std::string& key)] *)
Definition SetColumnKey_name (b : build) (name key : string) (this : t)
  : outcome t :=
  SetColumnKey b [name] key this.

(** [GetColumnKey(columnPath, key_metadata = "")]; [columnPath] is not
    null. *)
Definition GetColumnKey (columnPath : ColumnPath.t) (key_metadata : string)
                        (this : t) : outcome string :=
  if empty key_metadata then
    match column_keys_ this !! ColumnPath.ToDotString columnPath with
    | Some key => Returns key
    | None => Throws std_out_of_range
    end
  else
    match key_retriever_ this with
    | None =>
        Throws (ParquetException
                  "no key retriever is provided for column key metadata")
    | Some key_retriever =>
        DecryptionKeyRetriever.GetKey key_retriever key_metadata
    end.

(** [GetFooterKey(footer_key_metadata = "")] *)
Definition GetFooterKey (footer_key_metadata : string) (this : t)
  : outcome string :=
  if empty footer_key_metadata then Returns (footer_key_ this)
  else
    match key_retriever_ this with
    | None =>
        Throws (ParquetException
                  "no key retriever is provided for footer key metadata")
    | Some key_retriever =>
        DecryptionKeyRetriever.GetKey key_retriever footer_key_metadata
    end.

Definition GetAad (this : t) : string := aad_ this.

End FileDecryptionProperties.

(** ** FileEncryptionProperties *)

Module FileEncryptionProperties.

Record t : Type := Build {
  footer_encryption_ : shared_ptr;
  uniform_encryption_ : bool;
  columns_ : list ColumnEncryptionProperties.t;
  encrypt_the_rest_ : bool
}.

(** [FileEncryptionProperties(Encryption::type algorithm, const std::string&
    key, const std::string& key_metadata)].  The constructor does not
    initialise [encrypt_the_rest_]: its value is whatever the memory held,
    the argument [indeterminate]. *)
Definition new (b : build) (indeterminate : bool) (h : store)
               (algorithm : Encryption.type) (key key_metadata : string)
  : outcome (store * t) :=
  (DCHECK b (key_length_ok key) ;;;
   (if negb (empty key_metadata)
    then DCHECK b (String.length key_metadata <=? 256)%nat
    else Returns tt) ;;;
   let '(h, footer) :=
     alloc h (EncryptionProperties.Build algorithm key key_metadata "") in
   Returns (h, Build (Some footer) (negb (empty key)) [] indeterminate))%outcome.

(** [FileEncryptionProperties(Encryption::type algorithm, const std::string&
    key, int key_id)] *)
Definition new_id (b : build) (indeterminate : bool) (bo : byte_order)
                  (h : store) (algorithm : Encryption.type) (key : string)
                  (key_id : Z) : outcome (store * t) :=
  let key_id := uint32 key_id in
  new b indeterminate h algorithm key
      (if (key_id =? 0)%Z then "" else object_bytes bo key_id).

(** The first loop of [SetupColumns], entered with [uniform_encryption_ =
    true]: the value of [uniform_encryption_] when the loop is left, and
    the number of columns the loop has looked at. *)
Fixpoint uniform_scan (footer_key : string)
                      (columns : list ColumnEncryptionProperties.t)
  : bool * nat :=
  match columns with
  | [] => (true, 0)
  | col :: columns =>
      if negb (compare (ColumnEncryptionProperties.key col) footer_key =? 0)%Z
      then (false, 1)
      else let '(uniform, seen) := uniform_scan footer_key columns in
           (uniform, S seen)
  end.

(** The second loop of [SetupColumns]: the value of [all_are_unencrypted]
    when the loop is left, or the exception that leaves it. *)
Fixpoint unencrypted_scan (columns : list ColumnEncryptionProperties.t)
                          (all_are_unencrypted : bool) : outcome bool :=
  match columns with
  | [] => Returns all_are_unencrypted
  | col :: columns =>
      if ColumnEncryptionProperties.encrypted col then
        if empty (ColumnEncryptionProperties.key col) then
          Throws (ParquetException "Encrypt column with null footer key")
        else unencrypted_scan columns false
      else unencrypted_scan columns all_are_unencrypted
  end.

(** [SetupColumns(columns, encrypt_the_rest)]: the object after the call,
    and the outcome. *)
Definition SetupColumns (h : store)
                        (columns : list ColumnEncryptionProperties.t)
                        (encrypt_the_rest : bool) (this : t)
  : t * outcome unit :=
  let this :=
    Build (footer_encryption_ this) (uniform_encryption_ this) columns
          encrypt_the_rest in
  match deref h (footer_encryption_ this) with
  | None => (this, Undefined)
  | Some footer =>
      if negb (empty (EncryptionProperties.key footer)) then
        (Build (footer_encryption_ this)
               (fst (uniform_scan (EncryptionProperties.key footer) columns))
               (columns_ this) (encrypt_the_rest_ this),
         Returns tt)
      else if encrypt_the_rest then
        (this, Throws (ParquetException "Encrypt the rest with null footer key"))
      else
        match unencrypted_scan columns true with
        | Returns all_are_unencrypted =>
            if all_are_unencrypted then
              (this, Throws (ParquetException
                               "Footer and all columns unencrypted"))
            else (this, Returns tt)
        | Throws e => (this, Throws e)
        | CheckFailed => (this, CheckFailed)
        | Undefined => (this, Undefined)
        end
  end.

Definition GetFooterEncryptionProperties (this : t) : shared_ptr :=
  footer_encryption_ this.

(** The loop [for (const auto& col : columns_) if (col.path() == path_str)
    ...]: the index and the value of the first column with that path. *)
Fixpoint find_column (path_str : string)
                     (columns : list ColumnEncryptionProperties.t) (i : nat)
  : option (nat * ColumnEncryptionProperties.t) :=
  match columns with
  | [] => None
  | col :: columns =>
      if String.eqb (ColumnEncryptionProperties.path col) path_str
      then Some (i, col)
      else find_column path_str columns (S i)
  end.

(** What a [std::shared_ptr<ColumnEncryptionProperties>] returned by
    [GetColumnCryptoMetaData] owns: an object of its own, allocated by
    [std::make_shared] or [new], or the element [columns_[i]] of the policy,
    when the pointer was made from [&col]. *)
Inductive column_ptr : Type :=
| OwnObject (col : ColumnEncryptionProperties.t)
| ColumnsElement (i : nat).

Definition deref_column (this : t) (p : column_ptr)
  : option ColumnEncryptionProperties.t :=
  match p with
  | OwnObject col => Some col
  | ColumnsElement i => columns_ this !! i
  end.

(** The end of the last [std::shared_ptr] that owns the object: [delete] on
    the pointer it was made from.  An element of [columns_] lies in the
    storage of the vector and was not allocated by [new]: [delete] on it has
    no defined behaviour, and the policy, whose vector still holds the
    element, is not to be relied on afterwards. *)
Definition release (p : column_ptr) : outcome unit :=
  match p with
  | OwnObject _ => Returns tt
  | ColumnsElement _ => Undefined
  end.

(** [GetColumnCryptoMetaData(path)]; [path] is not null.  The pointer
    returned owns its object: see [release] for what its end does. *)
Definition GetColumnCryptoMetaData (path : ColumnPath.t) (this : t)
  : column_ptr :=
  if uniform_encryption_ this then
    OwnObject (ColumnEncryptionProperties.new true (ColumnPath.ToDotString path))
  else
    let path_str := ColumnPath.ToDotString path in
    match find_column path_str (columns_ this) 0 with
    | Some (i, _) => ColumnsElement i
    | None =>
        if encrypt_the_rest_ this then
          OwnObject (ColumnEncryptionProperties.new
                       true (ColumnPath.ToDotString path))
        else
          OwnObject (ColumnEncryptionProperties.new
                       false (ColumnPath.ToDotString path))
    end.

(** [GetColumnEncryptionProperties(path)]: the store after the call, and
    the pointer returned. *)
Definition GetColumnEncryptionProperties (h : store) (path : ColumnPath.t)
                                         (this : t)
  : outcome (store * shared_ptr) :=
  if uniform_encryption_ this then Returns (h, footer_encryption_ this)
  else
    let path_str := ColumnPath.ToDotString path in
    match find_column path_str (columns_ this) 0 with
    | Some (_, col) =>
        match deref h (footer_encryption_ this) with
        | None => Undefined
        | Some footer =>
            let '(h, p) :=
              alloc h (EncryptionProperties.Build
                         (EncryptionProperties.algorithm footer)
                         (ColumnEncryptionProperties.key col)
                         (ColumnEncryptionProperties.key_metadata col)
                         (EncryptionProperties.aad footer)) in
            Returns (h, Some p)
        end
    | None =>
        if encrypt_the_rest_ this then Returns (h, footer_encryption_ this)
        else Returns (h, None)
    end.

(** [SetupAad(aad)]: the store after the call. *)
Definition SetupAad (h : store) (aad : string) (this : t) : outcome store :=
  match footer_encryption_ this with
  | None => Undefined
  | Some l =>
      match h !! l with
      | None => Undefined
      | Some footer =>
          Returns (<[l := EncryptionProperties.set_aad aad footer]> h)
      end
  end.

End FileEncryptionProperties.

(** ** Objects used as examples *)

Module Examples.

Definition K1 : string := "0123456789abcdef".
Definition K2 : string := "fedcba9876543210".

(** A key retriever that knows one key identifier. *)
Definition retriever : DecryptionKeyRetriever.t :=
  DecryptionKeyRetriever.Build
    (fun key_metadata =>
       if String.eqb key_metadata "kid" then Returns K2
       else Throws (ParquetException "unknown key metadata")).

(** A decryption policy with a retriever and the key [K1] registered for
    the column [a.b]. *)
Definition decryption : FileDecryptionProperties.t :=
  FileDecryptionProperties.Build "" "" {["a.b" := K1]} (Some retriever).

(** A decryption policy with a literal footer key and no retriever. *)
Definition decryption_literal : FileDecryptionProperties.t :=
  FileDecryptionProperties.Build K1 "" ∅ None.

(** Key metadata of 257 bytes. *)
Definition long_metadata : string :=
  string_of_list_ascii (repeat "m"%char 257).

(** The store and the policy that [FileEncryptionProperties(AES_GCM_V1, K1,
    "")] leaves, and those of an empty footer key. *)
Definition footer : EncryptionProperties.t :=
  EncryptionProperties.Build Encryption.AES_GCM_V1 K1 "" "".
Definition keyed_store : store := {[0 := footer]}.
Definition keyed : FileEncryptionProperties.t :=
  FileEncryptionProperties.Build (Some 0) true [] false.

Definition null_footer : EncryptionProperties.t :=
  EncryptionProperties.Build Encryption.AES_GCM_V1 "" "" "".
Definition unkeyed_store : store := {[0 := null_footer]}.
Definition unkeyed : FileEncryptionProperties.t :=
  FileEncryptionProperties.Build (Some 0) false [] false.

(** Column specifications: [a] with the footer key as its own key, [b]
    with a key of its own, [c] encrypted without a key of its own, [d]
    not encrypted. *)
Definition col_a : ColumnEncryptionProperties.t :=
  ColumnEncryptionProperties.Build true "a" false K1 "".
Definition col_b : ColumnEncryptionProperties.t :=
  ColumnEncryptionProperties.Build true "b" false K2 "kid".
Definition col_c : ColumnEncryptionProperties.t :=
  ColumnEncryptionProperties.new true "c".
Definition col_d : ColumnEncryptionProperties.t :=
  ColumnEncryptionProperties.new false "d".

End Examples.

(** ** Writer settings: values declared outside this file *)

Module ParquetVersion.

Inductive type : Type := PARQUET_1_0 | PARQUET_2_0.

End ParquetVersion.

(** [Encoding::type] is declared in parquet/types.h: the three values this
    file names, and the other values of the enum, kept apart by their
    code. *)
Module Encoding.

Inductive type : Type :=
| PLAIN
| PLAIN_DICTIONARY
| RLE_DICTIONARY
| other (code : nat).

Definition eqb (a b : type) : bool :=
  match a, b with
  | PLAIN, PLAIN => true
  | PLAIN_DICTIONARY, PLAIN_DICTIONARY => true
  | RLE_DICTIONARY, RLE_DICTIONARY => true
  | other m, other n => (m =? n)%nat
  | _, _ => false
  end.

End Encoding.

(** [Compression::type] is declared in parquet/types.h: the value this file
    names, and the other values of the enum, kept apart by their code. *)
Module Compression.

Inductive type : Type :=
| UNCOMPRESSED
| other (code : nat).

End Compression.

(** What the defaults of the writer take from outside this file: the pool
    [::arrow::default_memory_pool()] (a pool is known by its address), the
    macro [CREATED_BY_VERSION] of parquet/parquet_version.h, and the
    default-constructed [EncryptionProperties()]. *)
Module Externals.

Record t : Type := Build {
  default_memory_pool : nat;
  CREATED_BY_VERSION : string;
  EncryptionProperties_default : EncryptionProperties.t
}.

End Externals.

Definition DEFAULT_PAGE_SIZE : Z := 1024 * 1024.
Definition DEFAULT_IS_DICTIONARY_ENABLED : bool := true.
Definition DEFAULT_DICTIONARY_PAGE_SIZE_LIMIT : Z := DEFAULT_PAGE_SIZE.
Definition DEFAULT_WRITE_BATCH_SIZE : Z := 1024.
Definition DEFAULT_MAX_ROW_GROUP_LENGTH : Z := 64 * 1024 * 1024.
Definition DEFAULT_ARE_STATISTICS_ENABLED : bool := true.
Definition DEFAULT_MAX_STATISTICS_SIZE : Z := 4096.
Definition DEFAULT_ENCODING : Encoding.type := Encoding.PLAIN.
Definition DEFAULT_WRITER_VERSION : ParquetVersion.type :=
  ParquetVersion.PARQUET_1_0.
Definition DEFAULT_CREATED_BY (ext : Externals.t) : string :=
  Externals.CREATED_BY_VERSION ext.
Definition DEFAULT_COMPRESSION_TYPE : Compression.type :=
  Compression.UNCOMPRESSED.
Definition DEFAULT_ENCRYPTION (ext : Externals.t) : EncryptionProperties.t :=
  Externals.EncryptionProperties_default ext.

(** ** ColumnProperties *)

Module ColumnProperties.

Record t : Type := Build {
  encoding_ : Encoding.type;
  codec_ : Compression.type;
  dictionary_enabled_ : bool;
  statistics_enabled_ : bool;
  max_stats_size_ : Z;
  encryption_ : EncryptionProperties.t
}.

(** [ColumnProperties()], every argument at its default. *)
Definition new (ext : Externals.t) : t :=
  Build DEFAULT_ENCODING DEFAULT_COMPRESSION_TYPE DEFAULT_IS_DICTIONARY_ENABLED
        DEFAULT_ARE_STATISTICS_ENABLED DEFAULT_MAX_STATISTICS_SIZE
        (DEFAULT_ENCRYPTION ext).

Definition set_encoding (encoding : Encoding.type) (this : t) : t :=
  Build encoding (codec_ this) (dictionary_enabled_ this)
        (statistics_enabled_ this) (max_stats_size_ this) (encryption_ this).

Definition set_compression (codec : Compression.type) (this : t) : t :=
  Build (encoding_ this) codec (dictionary_enabled_ this)
        (statistics_enabled_ this) (max_stats_size_ this) (encryption_ this).

Definition set_dictionary_enabled (dictionary_enabled : bool) (this : t) : t :=
  Build (encoding_ this) (codec_ this) dictionary_enabled
        (statistics_enabled_ this) (max_stats_size_ this) (encryption_ this).

Definition set_statistics_enabled (statistics_enabled : bool) (this : t) : t :=
  Build (encoding_ this) (codec_ this) (dictionary_enabled_ this)
        statistics_enabled (max_stats_size_ this) (encryption_ this).

Definition set_max_statistics_size (max_stats_size : Z) (this : t) : t :=
  Build (encoding_ this) (codec_ this) (dictionary_enabled_ this)
        (statistics_enabled_ this) max_stats_size (encryption_ this).

Definition set_encryption (encryption : EncryptionProperties.t) (this : t) : t :=
  Build (encoding_ this) (codec_ this) (dictionary_enabled_ this)
        (statistics_enabled_ this) (max_stats_size_ this) encryption.

Definition encoding (this : t) : Encoding.type := encoding_ this.
Definition compression (this : t) : Compression.type := codec_ this.
Definition dictionary_enabled (this : t) : bool := dictionary_enabled_ this.
Definition statistics_enabled (this : t) : bool := statistics_enabled_ this.
Definition max_statistics_size (this : t) : Z := max_stats_size_ this.
Definition encryption (this : t) : EncryptionProperties.t := encryption_ this.

End ColumnProperties.

(** ** WriterProperties *)

(** The policy behind [parquet_file_encryption_] is held by value: the
    methods below do not change it. *)
Module WriterProperties.

Record t : Type := Build {
  pool_ : nat;
  dictionary_pagesize_limit_ : Z;
  write_batch_size_ : Z;
  max_row_group_length_ : Z;
  pagesize_ : Z;
  parquet_version_ : ParquetVersion.type;
  parquet_created_by_ : string;
  parquet_file_encryption_ : option FileEncryptionProperties.t;
  default_column_properties_ : ColumnProperties.t;
  column_properties_ : gmap string ColumnProperties.t
}.

Definition memory_pool (this : t) : nat := pool_ this.
Definition dictionary_pagesize_limit (this : t) : Z :=
  dictionary_pagesize_limit_ this.
Definition write_batch_size (this : t) : Z := write_batch_size_ this.
Definition max_row_group_length (this : t) : Z := max_row_group_length_ this.
Definition data_pagesize (this : t) : Z := pagesize_ this.
Definition version (this : t) : ParquetVersion.type := parquet_version_ this.
Definition created_by (this : t) : string := parquet_created_by_ this.
Definition file_encryption (this : t) : option FileEncryptionProperties.t :=
  parquet_file_encryption_ this.

Definition footer_encryption (this : t) : shared_ptr :=
  match parquet_file_encryption_ this with
  | None => None
  | Some file_encryption =>
      FileEncryptionProperties.GetFooterEncryptionProperties file_encryption
  end.

Definition dictionary_index_encoding (this : t) : Encoding.type :=
  match parquet_version_ this with
  | ParquetVersion.PARQUET_1_0 => Encoding.PLAIN_DICTIONARY
  | _ => Encoding.RLE_DICTIONARY
  end.

Definition dictionary_page_encoding (this : t) : Encoding.type :=
  match parquet_version_ this with
  | ParquetVersion.PARQUET_1_0 => Encoding.PLAIN_DICTIONARY
  | _ => Encoding.PLAIN
  end.

(** [column_properties(path)]; [path] is not null. *)
Definition column_properties (path : ColumnPath.t) (this : t)
  : ColumnProperties.t :=
  match column_properties_ this !! ColumnPath.ToDotString path with
  | Some properties => properties
  | None => default_column_properties_ this
  end.

Definition encoding (path : ColumnPath.t) (this : t) : Encoding.type :=
  ColumnProperties.encoding (column_properties path this).

Definition compression (path : ColumnPath.t) (this : t) : Compression.type :=
  ColumnProperties.compression (column_properties path this).

Definition dictionary_enabled (path : ColumnPath.t) (this : t) : bool :=
  ColumnProperties.dictionary_enabled (column_properties path this).

Definition statistics_enabled (path : ColumnPath.t) (this : t) : bool :=
  ColumnProperties.statistics_enabled (column_properties path this).

Definition max_statistics_size (path : ColumnPath.t) (this : t) : Z :=
  ColumnProperties.max_statistics_size (column_properties path this).

(** [column_encryption_props(path)]: [None] is the null pointer. *)
Definition column_encryption_props (path : ColumnPath.t) (this : t)
  : option FileEncryptionProperties.column_ptr :=
  match parquet_file_encryption_ this with
  | Some file_encryption =>
      Some (FileEncryptionProperties.GetColumnCryptoMetaData path file_encryption)
  | None => None
  end.

(** [encryption(path)]: the store after the call, and the pointer
    returned. *)
Definition encryption (h : store) (path : ColumnPath.t) (this : t)
  : outcome (store * shared_ptr) :=
  match parquet_file_encryption_ this with
  | Some file_encryption =>
      FileEncryptionProperties.GetColumnEncryptionProperties
        h path file_encryption
  | None => Returns (h, None)
  end.

End WriterProperties.

(** ** WriterProperties::Builder *)

Module Builder.

Record t : Type := Build {
  pool_ : nat;
  dictionary_pagesize_limit_ : Z;
  write_batch_size_ : Z;
  max_row_group_length_ : Z;
  pagesize_ : Z;
  version_ : ParquetVersion.type;
  created_by_ : string;
  file_encryption_ : option FileEncryptionProperties.t;
  default_column_properties_ : ColumnProperties.t;
  encodings_ : gmap string Encoding.type;
  codecs_ : gmap string Compression.type;
  dictionary_enabled_ : gmap string bool;
  statistics_enabled_ : gmap string bool
}.

(** [Builder()] *)
Definition new (ext : Externals.t) : t :=
  Build (Externals.default_memory_pool ext) DEFAULT_DICTIONARY_PAGE_SIZE_LIMIT
        DEFAULT_WRITE_BATCH_SIZE DEFAULT_MAX_ROW_GROUP_LENGTH DEFAULT_PAGE_SIZE
        DEFAULT_WRITER_VERSION (DEFAULT_CREATED_BY ext) None
        (ColumnProperties.new ext) ∅ ∅ ∅ ∅.

(** Assignments to one member. *)
Definition assign_default_column_properties
    (f : ColumnProperties.t -> ColumnProperties.t) (this : t) : t :=
  Build (pool_ this) (dictionary_pagesize_limit_ this) (write_batch_size_ this)
        (max_row_group_length_ this) (pagesize_ this) (version_ this)
        (created_by_ this) (file_encryption_ this)
        (f (default_column_properties_ this)) (encodings_ this) (codecs_ this)
        (dictionary_enabled_ this) (statistics_enabled_ this).

Definition assign_file_encryption
    (file_encryption : option FileEncryptionProperties.t) (this : t) : t :=
  Build (pool_ this) (dictionary_pagesize_limit_ this) (write_batch_size_ this)
        (max_row_group_length_ this) (pagesize_ this) (version_ this)
        (created_by_ this) file_encryption (default_column_properties_ this)
        (encodings_ this) (codecs_ this) (dictionary_enabled_ this)
        (statistics_enabled_ this).

Definition memory_pool (pool : nat) (this : t) : t :=
  Build pool (dictionary_pagesize_limit_ this) (write_batch_size_ this)
        (max_row_group_length_ this) (pagesize_ this) (version_ this)
        (created_by_ this) (file_encryption_ this)
        (default_column_properties_ this) (encodings_ this) (codecs_ this)
        (dictionary_enabled_ this) (statistics_enabled_ this).

Definition enable_dictionary (this : t) : t :=
  assign_default_column_properties
    (ColumnProperties.set_dictionary_enabled true) this.

Definition disable_dictionary (this : t) : t :=
  assign_default_column_properties
    (ColumnProperties.set_dictionary_enabled false) this.

Definition assign_dictionary_enabled (path : string) (enabled : bool)
                                     (this : t) : t :=
  Build (pool_ this) (dictionary_pagesize_limit_ this) (write_batch_size_ this)
        (max_row_group_length_ this) (pagesize_ this) (version_ this)
        (created_by_ this) (file_encryption_ this)
        (default_column_properties_ this) (encodings_ this) (codecs_ this)
        (<[path := enabled]> (dictionary_enabled_ this))
        (statistics_enabled_ this).

(** [enable_dictionary(const std::string& path)] *)
Definition enable_dictionary_at (path : string) (this : t) : t :=
  assign_dictionary_enabled path true this.

(** [enable_dictionary(const std::shared_ptr<schema::ColumnPath>& path)] *)
Definition enable_dictionary_at_path (path : ColumnPath.t) (this : t) : t :=
  enable_dictionary_at (ColumnPath.ToDotString path) this.

(** [disable_dictionary(const std::string& path)] *)
Definition disable_dictionary_at (path : string) (this : t) : t :=
  assign_dictionary_enabled path false this.

(** [disable_dictionary(const std::shared_ptr<schema::ColumnPath>& path)] *)
Definition disable_dictionary_at_path (path : ColumnPath.t) (this : t) : t :=
  disable_dictionary_at (ColumnPath.ToDotString path) this.

Definition dictionary_pagesize_limit (dictionary_psize_limit : Z) (this : t)
  : t :=
  Build (pool_ this) dictionary_psize_limit (write_batch_size_ this)
        (max_row_group_length_ this) (pagesize_ this) (version_ this)
        (created_by_ this) (file_encryption_ this)
        (default_column_properties_ this) (encodings_ this) (codecs_ this)
        (dictionary_enabled_ this) (statistics_enabled_ this).

Definition write_batch_size (write_batch_size : Z) (this : t) : t :=
  Build (pool_ this) (dictionary_pagesize_limit_ this) write_batch_size
        (max_row_group_length_ this) (pagesize_ this) (version_ this)
        (created_by_ this) (file_encryption_ this)
        (default_column_properties_ this) (encodings_ this) (codecs_ this)
        (dictionary_enabled_ this) (statistics_enabled_ this).

Definition max_row_group_length (max_row_group_length : Z) (this : t) : t :=
  Build (pool_ this) (dictionary_pagesize_limit_ this) (write_batch_size_ this)
        max_row_group_length (pagesize_ this) (version_ this)
        (created_by_ this) (file_encryption_ this)
        (default_column_properties_ this) (encodings_ this) (codecs_ this)
        (dictionary_enabled_ this) (statistics_enabled_ this).

Definition data_pagesize (pg_size : Z) (this : t) : t :=
  Build (pool_ this) (dictionary_pagesize_limit_ this) (write_batch_size_ this)
        (max_row_group_length_ this) pg_size (version_ this)
        (created_by_ this) (file_encryption_ this)
        (default_column_properties_ this) (encodings_ this) (codecs_ this)
        (dictionary_enabled_ this) (statistics_enabled_ this).

Definition version (version : ParquetVersion.type) (this : t) : t :=
  Build (pool_ this) (dictionary_pagesize_limit_ this) (write_batch_size_ this)
        (max_row_group_length_ this) (pagesize_ this) version
        (created_by_ this) (file_encryption_ this)
        (default_column_properties_ this) (encodings_ this) (codecs_ this)
        (dictionary_enabled_ this) (statistics_enabled_ this).

Definition created_by (created_by : string) (this : t) : t :=
  Build (pool_ this) (dictionary_pagesize_limit_ this) (write_batch_size_ this)
        (max_row_group_length_ this) (pagesize_ this) (version_ this)
        created_by (file_encryption_ this)
        (default_column_properties_ this) (encodings_ this) (codecs_ this)
        (dictionary_enabled_ this) (statistics_enabled_ this).

(** [encoding_type == Encoding::PLAIN_DICTIONARY || encoding_type ==
    Encoding::RLE_DICTIONARY] *)
Definition is_dictionary (encoding_type : Encoding.type) : bool :=
  Encoding.eqb encoding_type Encoding.PLAIN_DICTIONARY
  || Encoding.eqb encoding_type Encoding.RLE_DICTIONARY.

(** [encoding(Encoding::type encoding_type)]: the builder after the call,
    and the outcome. *)
Definition encoding (encoding_type : Encoding.type) (this : t)
  : t * outcome unit :=
  if is_dictionary encoding_type then
    (this, Throws (ParquetException
                     "Can't use dictionary encoding as fallback encoding"))
  else
    (assign_default_column_properties
       (ColumnProperties.set_encoding encoding_type) this,
     Returns tt).

(** [encoding(const std::string& path, Encoding::type encoding_type)] *)
Definition encoding_at (path : string) (encoding_type : Encoding.type)
                       (this : t) : t * outcome unit :=
  if is_dictionary encoding_type then
    (this, Throws (ParquetException
                     "Can't use dictionary encoding as fallback encoding"))
  else
    (Build (pool_ this) (dictionary_pagesize_limit_ this)
           (write_batch_size_ this) (max_row_group_length_ this)
           (pagesize_ this) (version_ this) (created_by_ this)
           (file_encryption_ this) (default_column_properties_ this)
           (<[path := encoding_type]> (encodings_ this)) (codecs_ this)
           (dictionary_enabled_ this) (statistics_enabled_ this),
     Returns tt).

(** [encoding(const std::shared_ptr<schema::ColumnPath>& path,
    Encoding::type encoding_type)] *)
Definition encoding_at_path (path : ColumnPath.t)
                            (encoding_type : Encoding.type) (this : t)
  : t * outcome unit :=
  encoding_at (ColumnPath.ToDotString path) encoding_type this.

Definition compression (codec : Compression.type) (this : t) : t :=
  assign_default_column_properties (ColumnProperties.set_compression codec) this.

Definition max_statistics_size (max_stats_sz : Z) (this : t) : t :=
  assign_default_column_properties
    (ColumnProperties.set_max_statistics_size max_stats_sz) this.

(** [compression(const std::string& path, Compression::type codec)] *)
Definition compression_at (path : string) (codec : Compression.type)
                          (this : t) : t :=
  Build (pool_ this) (dictionary_pagesize_limit_ this) (write_batch_size_ this)
        (max_row_group_length_ this) (pagesize_ this) (version_ this)
        (created_by_ this) (file_encryption_ this)
        (default_column_properties_ this) (encodings_ this)
        (<[path := codec]> (codecs_ this))
        (dictionary_enabled_ this) (statistics_enabled_ this).

(** [compression(const std::shared_ptr<schema::ColumnPath>& path,
    Compression::type codec)] *)
Definition compression_at_path (path : ColumnPath.t) (codec : Compression.type)
                               (this : t) : t :=
  compression_at (ColumnPath.ToDotString path) codec this.

(** [encryption(Encryption::type algorithm, const std::string& key, uint32_t
    key_id)]: [file_encryption_.reset(new FileEncryptionProperties(algorithm,
    key, key_id))], with the constructor that takes an [int].  The store
    after the call and the builder, unless an assertion stops the
    constructor. *)
Definition encryption_algorithm_id
    (b : build) (indeterminate : bool) (bo : byte_order) (h : store)
    (algorithm : Encryption.type) (key : string) (key_id : Z) (this : t)
  : outcome (store * t) :=
  (created <- FileEncryptionProperties.new_id
                b indeterminate bo h algorithm key (uint32 key_id) ;;
   Returns (fst created, assign_file_encryption (Some (snd created)) this))%outcome.

(** [encryption(Encryption::type algorithm, const std::string& key, const
    std::string& key_id)] *)
Definition encryption_algorithm_metadata
    (b : build) (indeterminate : bool) (h : store)
    (algorithm : Encryption.type) (key key_id : string) (this : t)
  : outcome (store * t) :=
  (created <- FileEncryptionProperties.new
                b indeterminate h algorithm key key_id ;;
   Returns (fst created, assign_file_encryption (Some (snd created)) this))%outcome.

(** [encryption(const std::string& key)] *)
Definition encryption
    (b : build) (indeterminate : bool) (bo : byte_order) (h : store)
    (key : string) (this : t) : outcome (store * t) :=
  encryption_algorithm_id b indeterminate bo h Encryption.AES_GCM_V1 key 0 this.

(** [encryption(const std::string& key, uint32_t key_id)] *)
Definition encryption_id
    (b : build) (indeterminate : bool) (bo : byte_order) (h : store)
    (key : string) (key_id : Z) (this : t) : outcome (store * t) :=
  encryption_algorithm_id
    b indeterminate bo h Encryption.AES_GCM_V1 key key_id this.

(** [encryption(const std::string& key, std::string key_id)] *)
Definition encryption_metadata
    (b : build) (indeterminate : bool) (h : store) (key key_id : string)
    (this : t) : outcome (store * t) :=
  encryption_algorithm_metadata
    b indeterminate h Encryption.AES_GCM_V1 key key_id this.

(** [column_encryption(columns, encrypt_the_rest)]: the builder after the
    call, and the outcome. *)
Definition column_encryption
    (h : store) (columns : list ColumnEncryptionProperties.t)
    (encrypt_the_rest : bool) (this : t) : t * outcome unit :=
  match file_encryption_ this with
  | None => (this, Throws (ParquetException "null file encryption"))
  | Some file_encryption =>
      let result :=
        FileEncryptionProperties.SetupColumns
          h columns encrypt_the_rest file_encryption in
      (assign_file_encryption (Some (fst result)) this, snd result)
  end.

Definition enable_statistics (this : t) : t :=
  assign_default_column_properties
    (ColumnProperties.set_statistics_enabled true) this.

Definition disable_statistics (this : t) : t :=
  assign_default_column_properties
    (ColumnProperties.set_statistics_enabled false) this.

Definition assign_statistics_enabled (path : string) (enabled : bool)
                                     (this : t) : t :=
  Build (pool_ this) (dictionary_pagesize_limit_ this) (write_batch_size_ this)
        (max_row_group_length_ this) (pagesize_ this) (version_ this)
        (created_by_ this) (file_encryption_ this)
        (default_column_properties_ this) (encodings_ this) (codecs_ this)
        (dictionary_enabled_ this)
        (<[path := enabled]> (statistics_enabled_ this)).

(** [enable_statistics(const std::string& path)] *)
Definition enable_statistics_at (path : string) (this : t) : t :=
  assign_statistics_enabled path true this.

(** [enable_statistics(const std::shared_ptr<schema::ColumnPath>& path)] *)
Definition enable_statistics_at_path (path : ColumnPath.t) (this : t) : t :=
  enable_statistics_at (ColumnPath.ToDotString path) this.

(** [disable_statistics(const std::string& path)] *)
Definition disable_statistics_at (path : string) (this : t) : t :=
  assign_statistics_enabled path false this.

(** [disable_statistics(const std::shared_ptr<schema::ColumnPath>& path)] *)
Definition disable_statistics_at_path (path : ColumnPath.t) (this : t) : t :=
  disable_statistics_at (ColumnPath.ToDotString path) this.

(** The statement [get(item.first).set_...(item.second)] of [build]: [get]
    makes the entry of the key a copy of the default properties when there
    is none, and the setter changes the entry. *)
Definition set_item {V : Type} (default : ColumnProperties.t)
    (set : V -> ColumnProperties.t -> ColumnProperties.t)
    (column_properties : gmap string ColumnProperties.t) (item : string * V)
  : gmap string ColumnProperties.t :=
  let current :=
    match column_properties !! fst item with
    | Some properties => properties
    | None => default
    end in
  <[fst item := set (snd item) current]> column_properties.

(** One loop of [build] over the items of a map, in the order [items]. *)
Definition for_each_item {V : Type} (default : ColumnProperties.t)
    (set : V -> ColumnProperties.t -> ColumnProperties.t)
    (items : list (string * V))
    (column_properties : gmap string ColumnProperties.t)
  : gmap string ColumnProperties.t :=
  fold_left (set_item default set) items column_properties.

(** The four loops of [build], each over its map in a given order. *)
Definition build_column_properties (this : t)
    (encodings : list (string * Encoding.type))
    (codecs : list (string * Compression.type))
    (dictionary_enabled statistics_enabled : list (string * bool))
  : gmap string ColumnProperties.t :=
  let default := default_column_properties_ this in
  let column_properties : gmap string ColumnProperties.t := ∅ in
  let column_properties :=
    for_each_item default ColumnProperties.set_encoding encodings
                  column_properties in
  let column_properties :=
    for_each_item default ColumnProperties.set_compression codecs
                  column_properties in
  let column_properties :=
    for_each_item default ColumnProperties.set_dictionary_enabled
                  dictionary_enabled column_properties in
  for_each_item default ColumnProperties.set_statistics_enabled
                statistics_enabled column_properties.

(** [build()]: the builder after the call, whose [file_encryption_] has been
    moved from, and the properties built.  A [std::unordered_map] is
    iterated in an order the code does not choose; the order here is that of
    [map_to_list]. *)
Definition build (this : t) : t * WriterProperties.t :=
  let column_properties :=
    build_column_properties
      this (map_to_list (encodings_ this)) (map_to_list (codecs_ this))
      (map_to_list (dictionary_enabled_ this))
      (map_to_list (statistics_enabled_ this)) in
  (assign_file_encryption None this,
   WriterProperties.Build
     (pool_ this) (dictionary_pagesize_limit_ this) (write_batch_size_ this)
     (max_row_group_length_ this) (pagesize_ this) (version_ this)
     (created_by_ this) (file_encryption_ this)
     (default_column_properties_ this) column_properties).

End Builder.

(** ** Sequences of calls on a builder *)

(** The calls a user makes on one builder before [build()], and what a
    sequence of them leaves, for a user who catches the exceptions and goes
    on.  The [bool] of the calls that construct a policy is the value the
    memory holds for its uninitialised [encrypt_the_rest_]. *)
Module Calls.

Inductive call : Type :=
| memory_pool (pool : nat)
| enable_dictionary
| disable_dictionary
| enable_dictionary_at (path : string)
| enable_dictionary_at_path (path : ColumnPath.t)
| disable_dictionary_at (path : string)
| disable_dictionary_at_path (path : ColumnPath.t)
| dictionary_pagesize_limit (dictionary_psize_limit : Z)
| write_batch_size (write_batch_size : Z)
| max_row_group_length (max_row_group_length : Z)
| data_pagesize (pg_size : Z)
| version (version : ParquetVersion.type)
| created_by (created_by : string)
| encoding (encoding_type : Encoding.type)
| encoding_at (path : string) (encoding_type : Encoding.type)
| encoding_at_path (path : ColumnPath.t) (encoding_type : Encoding.type)
| compression (codec : Compression.type)
| max_statistics_size (max_stats_sz : Z)
| compression_at (path : string) (codec : Compression.type)
| compression_at_path (path : ColumnPath.t) (codec : Compression.type)
| encryption (indeterminate : bool) (key : string)
| encryption_id (indeterminate : bool) (key : string) (key_id : Z)
| encryption_metadata (indeterminate : bool) (key key_id : string)
| encryption_algorithm_id (indeterminate : bool) (algorithm : Encryption.type)
                          (key : string) (key_id : Z)
| encryption_algorithm_metadata (indeterminate : bool)
                                (algorithm : Encryption.type)
                                (key key_id : string)
| column_encryption (columns : list ColumnEncryptionProperties.t)
                    (encrypt_the_rest : bool)
| enable_statistics
| disable_statistics
| enable_statistics_at (path : string)
| enable_statistics_at_path (path : ColumnPath.t)
| disable_statistics_at (path : string)
| disable_statistics_at_path (path : ColumnPath.t).

Definition is_encryption (c : call) : bool :=
  match c with
  | encryption _ _ | encryption_id _ _ _ | encryption_metadata _ _ _
  | encryption_algorithm_id _ _ _ _ | encryption_algorithm_metadata _ _ _ _ =>
      true
  | _ => false
  end.

Definition returned (h : store) (this : Builder.t)
  : (store * Builder.t) * outcome unit :=
  ((h, this), Returns tt).

Definition left_by (h : store) (result : Builder.t * outcome unit)
  : (store * Builder.t) * outcome unit :=
  ((h, fst result), snd result).

Definition constructed (h : store) (this : Builder.t)
                       (result : outcome (store * Builder.t))
  : (store * Builder.t) * outcome unit :=
  match result with
  | Returns after => (after, Returns tt)
  | Throws e => ((h, this), Throws e)
  | CheckFailed => ((h, this), CheckFailed)
  | Undefined => ((h, this), Undefined)
  end.

(** One call: the store and the builder after it, and its outcome. *)
Definition perform (b : build) (bo : byte_order) (c : call) (h : store)
                   (this : Builder.t) : (store * Builder.t) * outcome unit :=
  match c with
  | memory_pool pool => returned h (Builder.memory_pool pool this)
  | enable_dictionary => returned h (Builder.enable_dictionary this)
  | disable_dictionary => returned h (Builder.disable_dictionary this)
  | enable_dictionary_at path =>
      returned h (Builder.enable_dictionary_at path this)
  | enable_dictionary_at_path path =>
      returned h (Builder.enable_dictionary_at_path path this)
  | disable_dictionary_at path =>
      returned h (Builder.disable_dictionary_at path this)
  | disable_dictionary_at_path path =>
      returned h (Builder.disable_dictionary_at_path path this)
  | dictionary_pagesize_limit z =>
      returned h (Builder.dictionary_pagesize_limit z this)
  | write_batch_size z => returned h (Builder.write_batch_size z this)
  | max_row_group_length z => returned h (Builder.max_row_group_length z this)
  | data_pagesize z => returned h (Builder.data_pagesize z this)
  | version v => returned h (Builder.version v this)
  | created_by s => returned h (Builder.created_by s this)
  | encoding e => left_by h (Builder.encoding e this)
  | encoding_at path e => left_by h (Builder.encoding_at path e this)
  | encoding_at_path path e =>
      left_by h (Builder.encoding_at_path path e this)
  | compression codec => returned h (Builder.compression codec this)
  | max_statistics_size z => returned h (Builder.max_statistics_size z this)
  | compression_at path codec =>
      returned h (Builder.compression_at path codec this)
  | compression_at_path path codec =>
      returned h (Builder.compression_at_path path codec this)
  | encryption indeterminate key =>
      constructed h this (Builder.encryption b indeterminate bo h key this)
  | encryption_id indeterminate key key_id =>
      constructed h this
        (Builder.encryption_id b indeterminate bo h key key_id this)
  | encryption_metadata indeterminate key key_id =>
      constructed h this
        (Builder.encryption_metadata b indeterminate h key key_id this)
  | encryption_algorithm_id indeterminate algorithm key key_id =>
      constructed h this
        (Builder.encryption_algorithm_id
           b indeterminate bo h algorithm key key_id this)
  | encryption_algorithm_metadata indeterminate algorithm key key_id =>
      constructed h this
        (Builder.encryption_algorithm_metadata
           b indeterminate h algorithm key key_id this)
  | column_encryption columns encrypt_the_rest =>
      left_by h (Builder.column_encryption h columns encrypt_the_rest this)
  | enable_statistics => returned h (Builder.enable_statistics this)
  | disable_statistics => returned h (Builder.disable_statistics this)
  | enable_statistics_at path =>
      returned h (Builder.enable_statistics_at path this)
  | enable_statistics_at_path path =>
      returned h (Builder.enable_statistics_at_path path this)
  | disable_statistics_at path =>
      returned h (Builder.disable_statistics_at path this)
  | disable_statistics_at_path path =>
      returned h (Builder.disable_statistics_at_path path this)
  end.

(** A sequence of calls, from the first: [None] when a call has stopped the
    process or has no defined behaviour. *)
Fixpoint run (b : build) (bo : byte_order) (calls : list call) (h : store)
             (this : Builder.t) : option (store * Builder.t) :=
  match calls with
  | [] => Some (h, this)
  | c :: calls =>
      match perform b bo c h this with
      | (after, Returns _) | (after, Throws _) =>
          run b bo calls (fst after) (snd after)
      | (_, CheckFailed) | (_, Undefined) => None
      end
  end.

End Calls.

(** What is outside this file, for the examples. *)
Module WriterExamples.

Definition ext : Externals.t :=
  Externals.Build 7 "parquet-cpp version 1.5.1-SNAPSHOT"
                  (EncryptionProperties.Build Encryption.AES_GCM_V1 "" "" "").

Definition snappy : Compression.type := Compression.other 1.
Definition rle : Encoding.type := Encoding.other 3.

End WriterExamples.

(** * Properties *)

(** ** Strings and outcomes *)

Lemma empty_true (s : string) : empty s = true <-> s = "".
Proof. destruct s; simpl; split; congruence. Qed.

Lemma empty_false (s : string) : empty s = false <-> s <> "".
Proof. destruct s; simpl; split; congruence. Qed.

Lemma String_compare_refl (a : string) : String.compare a a = Eq.
Proof.
  pose proof (String.compare_antisym a a) as H.
  destruct (String.compare a a); simpl in H; congruence.
Qed.

Lemma compare_zero (a b : string) : (compare a b =? 0)%Z = true <-> a = b.
Proof.
  unfold compare. split.
  - destruct (String.compare a b) eqn:E; simpl; try discriminate.
    intros _. now apply String.compare_eq_iff.
  - intros ->. now rewrite String_compare_refl.
Qed.

Lemma compare_nonzero (a b : string) :
  negb (compare a b =? 0)%Z = true <-> a <> b.
Proof.
  rewrite negb_true_iff. split.
  - intros H Hab. apply compare_zero in Hab. congruence.
  - intros H. destruct (compare a b =? 0)%Z eqn:E; [| reflexivity].
    apply compare_zero in E. contradiction.
Qed.

Lemma empty_negb (s : string) : negb (empty s) = true <-> s <> "".
Proof. rewrite negb_true_iff. apply empty_false. Qed.

(** ** Key identifiers *)

Lemma byte_value (z : Z) : Z.of_N (N_of_ascii (byte z)) = (z mod 256)%Z.
Proof.
  unfold byte.
  assert (0 <= z mod 256 < 256)%Z as Hr by (apply Z.mod_pos_bound; lia).
  rewrite N_ascii_embedding by lia.
  lia.
Qed.

Lemma object_bytes_length (bo : byte_order) (v : Z) :
  String.length (object_bytes bo v) = 4.
Proof. destruct bo; reflexivity. Qed.

Lemma object_bytes_not_empty (bo : byte_order) (v : Z) :
  object_bytes bo v <> "".
Proof. destruct bo; discriminate. Qed.

Lemma value_of_object_bytes (bo : byte_order) (v : Z) :
  (0 <= v < 2 ^ 32)%Z -> value_of_bytes bo (object_bytes bo v) = Some v.
Proof.
  intros Hv. destruct bo; cbn [object_bytes value_of_bytes];
    rewrite !byte_value; f_equal; change (2 ^ 8)%Z with 256%Z;
    change (2 ^ 16)%Z with 65536%Z; change (2 ^ 24)%Z with 16777216%Z;
    change (2 ^ 32)%Z with 4294967296%Z in Hv;
    Z.to_euclidean_division_equations; lia.
Qed.

Lemma uint32_id (v : Z) : (0 <= v < 2 ^ 32)%Z -> uint32 v = v.
Proof. intros Hv. unfold uint32. apply Z.mod_small. exact Hv. Qed.

(** ** ColumnEncryptionProperties: setting a key *)

Section SetEncryptionKey.

Import ColumnEncryptionProperties.

Lemma SetEncryptionKey_unencrypted (this : t) (key key_metadata : string) :
  encrypted this = false ->
  SetEncryptionKey key key_metadata this
  = (this, Throws (ParquetException
                     ("Setting key on unencrypted column: " ++ path this))).
Proof. unfold SetEncryptionKey, encrypted. now intros ->. Qed.

Lemma SetEncryptionKey_null_key (this : t) (key_metadata : string) :
  encrypted this = true ->
  SetEncryptionKey "" key_metadata this
  = (this, Throws (ParquetException ("Null key for " ++ path this))).
Proof. unfold SetEncryptionKey, encrypted. now intros ->. Qed.

Lemma SetEncryptionKey_stores (this : t) (key key_metadata : string) :
  encrypted this = true -> key <> "" ->
  SetEncryptionKey key key_metadata this
  = (Build true (path this) false key key_metadata, Returns tt).
Proof.
  unfold SetEncryptionKey, encrypted, path. intros -> Hkey.
  apply empty_false in Hkey. now rewrite Hkey.
Qed.

(** C9. [SetEncryptionKey] throws a [ParquetException] when the column is
    not marked encrypted or when the key is empty, and the object is then
    what it was before the call; otherwise it returns, the object keeps its
    path and its [encrypted] mark, [encrypted_with_footer_key] is false and
    the key and the key metadata are the ones supplied.  The variant with a
    numeric key id is the same call with empty metadata when the id is
    zero, and with the four bytes of the id (from which the id can be read
    back) when it is not. *)
Theorem SetEncryptionKey_spec (this : t) (key key_metadata : string) :
  (encrypted this = false \/ key = "" ->
   fst (SetEncryptionKey key key_metadata this) = this
   /\ throws_ParquetException (snd (SetEncryptionKey key key_metadata this)))
  /\ (encrypted this = true -> key <> "" ->
      snd (SetEncryptionKey key key_metadata this) = Returns tt
      /\ fst (SetEncryptionKey key key_metadata this)
         = Build (encrypted this) (path this) false key key_metadata)
  /\ (forall (bo : byte_order) (key_id : Z),
        (0 <= key_id < 2 ^ 32)%Z ->
        (key_id = 0%Z ->
         SetEncryptionKey_id bo key key_id this = SetEncryptionKey key "" this)
        /\ (key_id <> 0%Z ->
            exists blob,
              SetEncryptionKey_id bo key key_id this
              = SetEncryptionKey key blob this
              /\ String.length blob = 4
              /\ value_of_bytes bo blob = Some key_id)).
Proof.
  split; [| split].
  - intros H. destruct (encrypted this) eqn:He.
    + destruct H as [H | ->]; [discriminate |].
      rewrite SetEncryptionKey_null_key by assumption.
      split; [reflexivity | eexists; reflexivity].
    + rewrite SetEncryptionKey_unencrypted by assumption.
      split; [reflexivity | eexists; reflexivity].
  - intros He Hkey. rewrite SetEncryptionKey_stores by assumption.
    rewrite He. split; reflexivity.
  - intros bo key_id Hrange. unfold SetEncryptionKey_id.
    rewrite uint32_id by assumption. split.
    + intros ->. reflexivity.
    + intros Hnz. exists (object_bytes bo key_id).
      apply Z.eqb_neq in Hnz. rewrite Hnz.
      split; [reflexivity |].
      split; [apply object_bytes_length |].
      now apply value_of_object_bytes.
Qed.

End SetEncryptionKey.

Lemma SetEncryptionKey_spec_witness :
  let unkeyed := ColumnEncryptionProperties.new true "a.b" in
  let plain := ColumnEncryptionProperties.new false "c" in
  (fst (ColumnEncryptionProperties.SetEncryptionKey "k" "m" plain) = plain
   /\ throws_ParquetException
        (snd (ColumnEncryptionProperties.SetEncryptionKey "k" "m" plain)))
  /\ (snd (ColumnEncryptionProperties.SetEncryptionKey "k" "m" unkeyed)
      = Returns tt
      /\ fst (ColumnEncryptionProperties.SetEncryptionKey "k" "m" unkeyed)
         = ColumnEncryptionProperties.Build true "a.b" false "k" "m")
  /\ (exists blob,
        ColumnEncryptionProperties.SetEncryptionKey_id
          LittleEndian "k" 258 unkeyed
        = ColumnEncryptionProperties.SetEncryptionKey "k" blob unkeyed
        /\ String.length blob = 4
        /\ value_of_bytes LittleEndian blob = Some 258%Z).
Proof.
  intros unkeyed plain.
  split; [| split].
  - apply (proj1 (SetEncryptionKey_spec plain "k" "m")).
    left. reflexivity.
  - apply (proj1 (proj2 (SetEncryptionKey_spec unkeyed "k" "m")));
      [reflexivity | discriminate].
  - apply (proj2 (proj2 (SetEncryptionKey_spec unkeyed "k" "m")) LittleEndian 258%Z);
      [split; [discriminate | reflexivity] | discriminate].
Defined.

(** ** FileDecryptionProperties: resolving keys *)

Section ResolveKeys.

Import FileDecryptionProperties.

(** C7. [GetColumnKey] with empty key metadata returns the entry of
    [column_keys_] under the dotted path and throws [std::out_of_range]
    when there is none; with metadata that is not empty it throws a
    [ParquetException] when no key retriever is configured, and otherwise
    its outcome is the outcome of the retriever's [GetKey] on the metadata,
    a failure of the retriever included.  [GetFooterKey] does the same with
    [footer_key_] in the place of the map, so that with empty metadata it
    always returns. *)
Theorem GetColumnKey_GetFooterKey_spec
    (this : t) (columnPath : ColumnPath.t) (key_metadata : string) :
  (key_metadata = "" ->
   (forall key,
      column_keys_ this !! ColumnPath.ToDotString columnPath = Some key ->
      GetColumnKey columnPath key_metadata this = Returns key)
   /\ (column_keys_ this !! ColumnPath.ToDotString columnPath = None ->
       GetColumnKey columnPath key_metadata this = Throws std_out_of_range)
   /\ GetFooterKey key_metadata this = Returns (footer_key_ this))
  /\ (key_metadata <> "" ->
      (key_retriever_ this = None ->
       GetColumnKey columnPath key_metadata this
       = Throws (ParquetException
                   "no key retriever is provided for column key metadata")
       /\ GetFooterKey key_metadata this
          = Throws (ParquetException
                      "no key retriever is provided for footer key metadata"))
      /\ (forall key_retriever,
            key_retriever_ this = Some key_retriever ->
            GetColumnKey columnPath key_metadata this
            = DecryptionKeyRetriever.GetKey key_retriever key_metadata
            /\ GetFooterKey key_metadata this
               = DecryptionKeyRetriever.GetKey key_retriever key_metadata)).
Proof.
  unfold GetColumnKey, GetFooterKey. split.
  - intros ->. cbn [empty]. repeat split.
    + intros key ->. reflexivity.
    + intros ->. reflexivity.
  - intros Hmd. apply empty_false in Hmd. rewrite Hmd. split.
    + intros ->. split; reflexivity.
    + intros key_retriever ->. split; reflexivity.
Qed.

End ResolveKeys.

Lemma GetColumnKey_GetFooterKey_spec_witness :
  (FileDecryptionProperties.GetColumnKey ["a"; "b"] "" Examples.decryption
   = Returns Examples.K1
   /\ FileDecryptionProperties.GetColumnKey ["z"] "" Examples.decryption
      = Throws std_out_of_range
   /\ FileDecryptionProperties.GetFooterKey "" Examples.decryption_literal
      = Returns Examples.K1)
  /\ (FileDecryptionProperties.GetColumnKey ["z"] "kid" Examples.decryption_literal
      = Throws (ParquetException
                  "no key retriever is provided for column key metadata")
      /\ FileDecryptionProperties.GetFooterKey "kid" Examples.decryption_literal
         = Throws (ParquetException
                     "no key retriever is provided for footer key metadata"))
  /\ (FileDecryptionProperties.GetColumnKey ["z"] "kid" Examples.decryption
      = Returns Examples.K2
      /\ FileDecryptionProperties.GetFooterKey "???" Examples.decryption
         = Throws (ParquetException "unknown key metadata")).
Proof.
  split; [| split].
  - destruct (GetColumnKey_GetFooterKey_spec Examples.decryption ["a"; "b"] "")
      as [[Hfound _] _]; [reflexivity |].
    destruct (GetColumnKey_GetFooterKey_spec Examples.decryption ["z"] "")
      as [[_ [Habsent _]] _]; [reflexivity |].
    destruct (GetColumnKey_GetFooterKey_spec Examples.decryption_literal [] "")
      as [[_ [_ Hfooter]] _]; [reflexivity |].
    split; [apply Hfound; reflexivity |].
    split; [apply Habsent; reflexivity | exact Hfooter].
  - destruct (GetColumnKey_GetFooterKey_spec
                Examples.decryption_literal ["z"] "kid")
      as [_ [Hnone _]]; [discriminate |].
    apply Hnone. reflexivity.
  - destruct (GetColumnKey_GetFooterKey_spec Examples.decryption ["z"] "kid")
      as [_ [_ Hcol]]; [discriminate |].
    destruct (GetColumnKey_GetFooterKey_spec Examples.decryption ["z"] "???")
      as [_ [_ Hfooter]]; [discriminate |].
    split.
    + apply (proj1 (Hcol Examples.retriever eq_refl)).
    + apply (proj2 (Hfooter Examples.retriever eq_refl)).
Defined.

(** ** FileEncryptionProperties: the example policies are constructed *)

Lemma keyed_constructed (b : build) :
  FileEncryptionProperties.new b false ∅ Encryption.AES_GCM_V1 Examples.K1 ""
  = Returns (Examples.keyed_store, Examples.keyed).
Proof. destruct b; reflexivity. Qed.

Lemma unkeyed_constructed :
  FileEncryptionProperties.new NDEBUG false ∅ Encryption.AES_GCM_V1 "" ""
  = Returns (Examples.unkeyed_store, Examples.unkeyed).
Proof. reflexivity. Qed.

(** ** FileEncryptionProperties: the loops of SetupColumns *)

Section SetupColumnsLoops.

Import FileEncryptionProperties.

Lemma uniform_scan_all (footer_key : string)
    (columns : list ColumnEncryptionProperties.t) :
  Forall (fun c => ColumnEncryptionProperties.key c = footer_key) columns ->
  uniform_scan footer_key columns = (true, length columns).
Proof.
  induction 1 as [| col columns Hcol _ IH]; [reflexivity |].
  cbn [uniform_scan length].
  apply compare_zero in Hcol. rewrite Hcol, IH. reflexivity.
Qed.

Lemma uniform_scan_stops (footer_key : string)
    (before after : list ColumnEncryptionProperties.t)
    (col : ColumnEncryptionProperties.t) :
  Forall (fun c => ColumnEncryptionProperties.key c = footer_key) before ->
  ColumnEncryptionProperties.key col <> footer_key ->
  uniform_scan footer_key (before ++ col :: after)%list
  = (false, S (length before)).
Proof.
  intros Hbefore Hcol.
  induction Hbefore as [| c before Hc _ IH]; cbn [app uniform_scan length].
  - apply compare_nonzero in Hcol. rewrite Hcol. reflexivity.
  - apply compare_zero in Hc. rewrite Hc, IH. reflexivity.
Qed.

Lemma uniform_scan_true (footer_key : string)
    (columns : list ColumnEncryptionProperties.t) :
  fst (uniform_scan footer_key columns) = true
  <-> Forall (fun c => ColumnEncryptionProperties.key c = footer_key) columns.
Proof.
  split.
  - induction columns as [| col columns IH]; [constructor |].
    cbn [uniform_scan].
    destruct (compare (ColumnEncryptionProperties.key col) footer_key =? 0)%Z
      eqn:E; cbn [negb]; [| discriminate].
    destruct (uniform_scan footer_key columns) as [uniform seen].
    cbn [fst] in *. intros Hu. constructor.
    + now apply compare_zero.
    + now apply IH.
  - intros H. now rewrite uniform_scan_all.
Qed.

Lemma uniform_scan_mismatch (footer_key : string)
    (before after : list ColumnEncryptionProperties.t)
    (col : ColumnEncryptionProperties.t) :
  ColumnEncryptionProperties.key col <> footer_key ->
  fst (uniform_scan footer_key (before ++ col :: after)%list) = false.
Proof.
  intros Hcol.
  destruct (fst (uniform_scan footer_key (before ++ col :: after)%list))
    eqn:E; [| reflexivity].
  apply uniform_scan_true in E.
  apply Forall_app in E as [_ E]. inversion E; subst. contradiction.
Qed.

Lemma unencrypted_scan_none_encrypted
    (columns : list ColumnEncryptionProperties.t) (all_are_unencrypted : bool) :
  Forall (fun col => ColumnEncryptionProperties.encrypted col = false) columns ->
  unencrypted_scan columns all_are_unencrypted = Returns all_are_unencrypted.
Proof.
  induction 1 as [| col columns Hcol _ IH]; [reflexivity |].
  cbn [unencrypted_scan]. rewrite Hcol. exact IH.
Qed.

Lemma unencrypted_scan_null_key
    (columns : list ColumnEncryptionProperties.t) (all_are_unencrypted : bool) :
  Exists (fun col => ColumnEncryptionProperties.encrypted col = true
                     /\ ColumnEncryptionProperties.key col = "") columns ->
  unencrypted_scan columns all_are_unencrypted
  = Throws (ParquetException "Encrypt column with null footer key").
Proof.
  intros H. revert all_are_unencrypted.
  induction H as [col columns [He Hk] | col columns _ IH];
    intros all_are_unencrypted; cbn [unencrypted_scan].
  - rewrite He, Hk. reflexivity.
  - destruct (ColumnEncryptionProperties.encrypted col); [| apply IH].
    destruct (empty (ColumnEncryptionProperties.key col)); [reflexivity |].
    apply IH.
Qed.

(** The second loop returns [false] as soon as one column is encrypted
    with a key. *)
Lemma unencrypted_scan_keyed
    (columns : list ColumnEncryptionProperties.t) (all_are_unencrypted : bool) :
  Forall (fun col => ColumnEncryptionProperties.encrypted col = true ->
                     ColumnEncryptionProperties.key col <> "") columns ->
  unencrypted_scan columns all_are_unencrypted
  = Returns (all_are_unencrypted
             && forallb (fun col => negb (ColumnEncryptionProperties.encrypted col))
                        columns).
Proof.
  intros H. revert all_are_unencrypted.
  induction H as [| col columns Hcol _ IH]; intros all_are_unencrypted.
  - cbn. now rewrite andb_true_r.
  - cbn [unencrypted_scan forallb].
    destruct (ColumnEncryptionProperties.encrypted col) eqn:He; cbn [negb].
    + specialize (Hcol eq_refl). apply empty_false in Hcol. rewrite Hcol.
      rewrite IH. cbn. now rewrite andb_false_r.
    + rewrite IH. cbn. reflexivity.
Qed.

End SetupColumnsLoops.

(** ** FileEncryptionProperties: SetupColumns *)

Section SetupColumns.

Import FileEncryptionProperties.

Variable h : store.
Variable this : t.
Variable footer : EncryptionProperties.t.
Hypothesis Hfooter : deref h (footer_encryption_ this) = Some footer.

Lemma SetupColumns_keyed (columns : list ColumnEncryptionProperties.t)
    (encrypt_the_rest : bool) :
  EncryptionProperties.key footer <> "" ->
  SetupColumns h columns encrypt_the_rest this
  = (Build (footer_encryption_ this)
           (fst (uniform_scan (EncryptionProperties.key footer) columns))
           columns encrypt_the_rest,
     Returns tt).
Proof.
  intros Hkey. unfold SetupColumns. cbn [footer_encryption_].
  rewrite Hfooter. apply empty_negb in Hkey. rewrite Hkey. reflexivity.
Qed.

Lemma SetupColumns_unkeyed (columns : list ColumnEncryptionProperties.t)
    (encrypt_the_rest : bool) :
  EncryptionProperties.key footer = "" ->
  SetupColumns h columns encrypt_the_rest this
  = let this' := Build (footer_encryption_ this) (uniform_encryption_ this)
                       columns encrypt_the_rest in
    if encrypt_the_rest then
      (this', Throws (ParquetException "Encrypt the rest with null footer key"))
    else
      match unencrypted_scan columns true with
      | Returns true =>
          (this', Throws (ParquetException "Footer and all columns unencrypted"))
      | Returns false => (this', Returns tt)
      | Throws e => (this', Throws e)
      | CheckFailed => (this', CheckFailed)
      | Undefined => (this', Undefined)
      end.
Proof.
  intros Hkey. unfold SetupColumns. cbn [footer_encryption_].
  rewrite Hfooter, Hkey. cbn [empty negb].
  destruct encrypt_the_rest; [reflexivity |].
  destruct (unencrypted_scan columns true) as [[] | | |]; reflexivity.
Qed.

(** What the first loop of [SetupColumns] computes.  With a footer key that
    is not empty, [SetupColumns] returns for every list of columns, and
    [uniform_encryption_] is then true exactly when the key of every listed
    column equals the footer key; a listed column without a key of its own
    has the empty key, which differs from the footer key.  A column with a
    different key makes the flag false wherever it stands in the list, and
    the loop looks at no column after the first one whose key differs. *)
Theorem SetupColumns_uniform (columns : list ColumnEncryptionProperties.t)
    (encrypt_the_rest : bool) :
  EncryptionProperties.key footer <> "" ->
  let footer_key := EncryptionProperties.key footer in
  let this' := fst (SetupColumns h columns encrypt_the_rest this) in
  snd (SetupColumns h columns encrypt_the_rest this) = Returns tt
  /\ (uniform_encryption_ this' = true
      <-> Forall (fun col => ColumnEncryptionProperties.key col = footer_key)
                 columns)
  /\ (forall before col after,
        columns = (before ++ col :: after)%list ->
        ColumnEncryptionProperties.key col <> footer_key ->
        uniform_encryption_ this' = false)
  /\ (forall before col after,
        columns = (before ++ col :: after)%list ->
        Forall (fun c => ColumnEncryptionProperties.key c = footer_key) before ->
        ColumnEncryptionProperties.key col <> footer_key ->
        snd (uniform_scan footer_key columns) = S (length before))
  /\ (Forall (fun col => ColumnEncryptionProperties.key col = footer_key)
             columns ->
      snd (uniform_scan footer_key columns) = length columns).
Proof.
  intros Hkey footer_key this'. subst this'.
  rewrite SetupColumns_keyed by assumption. cbn [fst snd uniform_encryption_].
  split; [reflexivity |].
  split; [apply uniform_scan_true |].
  split; [| split].
  - intros before col after -> Hcol. now apply uniform_scan_mismatch.
  - intros before col after -> Hbefore Hcol.
    now rewrite uniform_scan_stops.
  - intros Hall. now rewrite uniform_scan_all.
Qed.

(** C4. With an empty footer key, [SetupColumns] with [encrypt_the_rest =
    true] throws the [ParquetException] "Encrypt the rest with null footer
    key", whatever the list of columns; the list and the flag have been
    stored by then. *)
Theorem SetupColumns_rest_with_null_footer_key
    (columns : list ColumnEncryptionProperties.t) :
  EncryptionProperties.key footer = "" ->
  SetupColumns h columns true this
  = (Build (footer_encryption_ this) (uniform_encryption_ this) columns true,
     Throws (ParquetException "Encrypt the rest with null footer key")).
Proof. intros Hkey. now rewrite SetupColumns_unkeyed. Qed.

(** C5. With an empty footer key, [SetupColumns] with a list that holds a
    column marked encrypted whose key is empty throws a [ParquetException]:
    "Encrypt column with null footer key" from the scan of the columns, or
    "Encrypt the rest with null footer key" when [encrypt_the_rest] is set,
    which is tested first. *)
Theorem SetupColumns_encrypted_column_with_null_keys
    (columns : list ColumnEncryptionProperties.t) (encrypt_the_rest : bool) :
  EncryptionProperties.key footer = "" ->
  Exists (fun col => ColumnEncryptionProperties.encrypted col = true
                     /\ ColumnEncryptionProperties.key col = "") columns ->
  snd (SetupColumns h columns encrypt_the_rest this)
  = Throws (ParquetException
              (if encrypt_the_rest
               then "Encrypt the rest with null footer key"
               else "Encrypt column with null footer key")).
Proof.
  intros Hkey Hcol. rewrite SetupColumns_unkeyed by assumption.
  destruct encrypt_the_rest; [reflexivity |].
  now rewrite unencrypted_scan_null_key.
Qed.

(** C6, as the code has it.  With an empty footer key, [SetupColumns] with
    [encrypt_the_rest = false] and a list in which no column is marked
    encrypted (the empty list included) throws the [ParquetException]
    "Footer and all columns unencrypted". *)
Theorem SetupColumns_nothing_encrypted
    (columns : list ColumnEncryptionProperties.t) :
  EncryptionProperties.key footer = "" ->
  Forall (fun col => ColumnEncryptionProperties.encrypted col = false) columns ->
  snd (SetupColumns h columns false this)
  = Throws (ParquetException "Footer and all columns unencrypted").
Proof.
  intros Hkey Hcols. rewrite SetupColumns_unkeyed by assumption.
  now rewrite unencrypted_scan_none_encrypted.
Qed.

End SetupColumns.

Lemma SetupColumns_uniform_witness :
  let columns := [Examples.col_a; Examples.col_b; Examples.col_a] in
  deref Examples.keyed_store
        (FileEncryptionProperties.footer_encryption_ Examples.keyed)
  = Some Examples.footer
  /\ EncryptionProperties.key Examples.footer <> ""
  /\ snd (FileEncryptionProperties.SetupColumns
            Examples.keyed_store columns false Examples.keyed) = Returns tt
  /\ FileEncryptionProperties.uniform_encryption_
       (fst (FileEncryptionProperties.SetupColumns
               Examples.keyed_store columns false Examples.keyed)) = false
  /\ snd (FileEncryptionProperties.uniform_scan Examples.K1 columns) = 2.
Proof.
  intros columns.
  pose proof (SetupColumns_uniform
                Examples.keyed_store Examples.keyed Examples.footer eq_refl
                columns false ltac:(discriminate)) as H.
  cbv zeta in H. destruct H as (Hret & _ & Hmismatch & Hstop & _).
  split; [reflexivity |]. split; [discriminate |]. split; [exact Hret |].
  split.
  - apply (Hmismatch [Examples.col_a] Examples.col_b [Examples.col_a]);
      [reflexivity | discriminate].
  - apply (Hstop [Examples.col_a] Examples.col_b [Examples.col_a]);
      [reflexivity | repeat constructor | discriminate].
Defined.

(** An unset key among equal keys: the footer key is [K1], the column [a] has
    the key [K1] and the column [c] has no key of its own, so the key of
    every listed column equals the footer key or is unset; after
    [SetupColumns], [uniform_encryption_] is false. *)
Lemma SetupColumns_unset_key_is_a_mismatch :
  let columns := [Examples.col_a; Examples.col_c] in
  EncryptionProperties.key Examples.footer = Examples.K1
  /\ Forall (fun col => ColumnEncryptionProperties.key col = Examples.K1
                        \/ ColumnEncryptionProperties.key col = "") columns
  /\ FileEncryptionProperties.SetupColumns
       Examples.keyed_store columns true Examples.keyed
     = (FileEncryptionProperties.Build (Some 0) false columns true, Returns tt)
  /\ ~ (FileEncryptionProperties.uniform_encryption_
          (fst (FileEncryptionProperties.SetupColumns
                  Examples.keyed_store columns true Examples.keyed)) = true
        <-> Forall (fun col => ColumnEncryptionProperties.key col = Examples.K1
                               \/ ColumnEncryptionProperties.key col = "")
                   columns).
Proof.
  intros columns.
  assert (Forall (fun col => ColumnEncryptionProperties.key col = Examples.K1
                             \/ ColumnEncryptionProperties.key col = "")
                 columns) as Hkeys.
  { constructor; [left; reflexivity |].
    constructor; [right; reflexivity | constructor]. }
  split; [reflexivity |]. split; [exact Hkeys |]. split; [reflexivity |].
  intros [_ Huniform]. specialize (Huniform Hkeys). discriminate Huniform.
Qed.

Lemma SetupColumns_rest_with_null_footer_key_witness :
  FileEncryptionProperties.SetupColumns
    Examples.unkeyed_store [Examples.col_b] true Examples.unkeyed
  = (FileEncryptionProperties.Build (Some 0) false [Examples.col_b] true,
     Throws (ParquetException "Encrypt the rest with null footer key")).
Proof.
  apply (SetupColumns_rest_with_null_footer_key
           Examples.unkeyed_store Examples.unkeyed Examples.null_footer eq_refl
           [Examples.col_b] eq_refl).
Defined.

Lemma SetupColumns_encrypted_column_with_null_keys_witness :
  snd (FileEncryptionProperties.SetupColumns
         Examples.unkeyed_store [Examples.col_b; Examples.col_c] false
         Examples.unkeyed)
  = Throws (ParquetException "Encrypt column with null footer key").
Proof.
  apply (SetupColumns_encrypted_column_with_null_keys
           Examples.unkeyed_store Examples.unkeyed Examples.null_footer eq_refl
           [Examples.col_b; Examples.col_c] false eq_refl).
  apply Exists_cons_tl, Exists_cons_hd. split; reflexivity.
Defined.

Lemma SetupColumns_nothing_encrypted_witness :
  snd (FileEncryptionProperties.SetupColumns
         Examples.unkeyed_store [Examples.col_d] false Examples.unkeyed)
  = Throws (ParquetException "Footer and all columns unencrypted").
Proof.
  apply (SetupColumns_nothing_encrypted
           Examples.unkeyed_store Examples.unkeyed Examples.null_footer eq_refl
           [Examples.col_d] eq_refl).
  repeat constructor.
Defined.

(** C6, as it is stated, fails: with the footer key [K1], a list whose only
    column is not encrypted and [encrypt_the_rest = false], [SetupColumns]
    returns; so it does with the empty list. *)
Lemma SetupColumns_nothing_encrypted_keyed_footer :
  Forall (fun col => ColumnEncryptionProperties.encrypted col = false)
         [Examples.col_d]
  /\ FileEncryptionProperties.SetupColumns
       Examples.keyed_store [Examples.col_d] false Examples.keyed
     = (FileEncryptionProperties.Build (Some 0) false [Examples.col_d] false,
        Returns tt)
  /\ FileEncryptionProperties.SetupColumns
       Examples.keyed_store [] false Examples.keyed
     = (FileEncryptionProperties.Build (Some 0) true [] false, Returns tt)
  /\ ~ throws_ParquetException
        (snd (FileEncryptionProperties.SetupColumns
                Examples.keyed_store [Examples.col_d] false Examples.keyed)).
Proof.
  split; [repeat constructor |]. split; [reflexivity |].
  split; [reflexivity |].
  intros [what Hthrows]. discriminate Hthrows.
Qed.

(** ** FileEncryptionProperties: resolving a column *)

Section FindColumn.

Import FileEncryptionProperties.

Lemma find_column_first (path_str : string)
    (before after : list ColumnEncryptionProperties.t)
    (col : ColumnEncryptionProperties.t) (i : nat) :
  Forall (fun c => ColumnEncryptionProperties.path c <> path_str) before ->
  ColumnEncryptionProperties.path col = path_str ->
  find_column path_str (before ++ col :: after)%list i
  = Some (i + length before, col).
Proof.
  intros Hbefore Hcol. revert i.
  induction Hbefore as [| c before Hc _ IH]; intros i;
    cbn [app find_column length].
  - apply String.eqb_eq in Hcol. rewrite Hcol. do 2 f_equal. lia.
  - apply String.eqb_neq in Hc. rewrite Hc, IH. do 2 f_equal. lia.
Qed.

Lemma find_column_none (path_str : string)
    (columns : list ColumnEncryptionProperties.t) (i : nat) :
  Forall (fun c => ColumnEncryptionProperties.path c <> path_str) columns ->
  find_column path_str columns i = None.
Proof.
  intros H. revert i.
  induction H as [| c columns Hc _ IH]; intros i; [reflexivity |].
  cbn [find_column]. apply String.eqb_neq in Hc. rewrite Hc. apply IH.
Qed.

Lemma alloc_fresh (h : store) (v : EncryptionProperties.t) :
  h !! snd (alloc h v) = None /\ fst (alloc h v) = <[snd (alloc h v) := v]> h.
Proof.
  unfold alloc. cbn [fst snd]. split; [| reflexivity].
  apply not_elem_of_dom. apply is_fresh.
Qed.

End FindColumn.

Section ResolveColumn.

Import FileEncryptionProperties.

Variable this : t.
Variable path : ColumnPath.t.

(** The pointer that [GetColumnCryptoMetaData] returns and the value behind
    it at the time of the call, whatever becomes of the pointer afterwards.
    In uniform mode [GetColumnCryptoMetaData] returns a new object for
    the path, encrypted and encrypted with the footer key, whether or not
    the path is listed.  Otherwise, when a listed column has the path, it
    returns a pointer to the first such element of [columns_]; when none
    has it, a new object for the path: encrypted with the footer key when
    [encrypt_the_rest_] is set, not encrypted when it is not. *)
Theorem GetColumnCryptoMetaData_spec :
  let path_str := ColumnPath.ToDotString path in
  (uniform_encryption_ this = true ->
   GetColumnCryptoMetaData path this
   = OwnObject (ColumnEncryptionProperties.Build true path_str true "" ""))
  /\ (uniform_encryption_ this = false ->
      (forall before col after,
         columns_ this = (before ++ col :: after)%list ->
         Forall (fun c => ColumnEncryptionProperties.path c <> path_str) before ->
         ColumnEncryptionProperties.path col = path_str ->
         GetColumnCryptoMetaData path this = ColumnsElement (length before)
         /\ deref_column this (GetColumnCryptoMetaData path this) = Some col)
      /\ (Forall (fun c => ColumnEncryptionProperties.path c <> path_str)
                 (columns_ this) ->
          GetColumnCryptoMetaData path this
          = OwnObject
              (if encrypt_the_rest_ this
               then ColumnEncryptionProperties.Build true path_str true "" ""
               else ColumnEncryptionProperties.Build false path_str false "" ""))).
Proof.
  intros path_str. unfold GetColumnCryptoMetaData. fold path_str.
  split; [intros ->; reflexivity |].
  intros ->. split.
  - intros before col after Hcols Hbefore Hcol.
    rewrite Hcols, (find_column_first _ _ _ _ _ Hbefore Hcol).
    cbn [Nat.add]. split; [reflexivity |].
    cbn [deref_column]. rewrite Hcols.
    rewrite lookup_app_r by lia. now rewrite Nat.sub_diag.
  - intros Hnone. rewrite (find_column_none _ _ _ Hnone).
    destruct (encrypt_the_rest_ this); reflexivity.
Qed.

Variable h : store.

(** C2. In uniform mode [GetColumnEncryptionProperties] returns the pointer
    [footer_encryption_] itself and allocates nothing: every path gets the
    same object.  Otherwise, when a listed column has the path, it returns
    a new object made of the algorithm and the AAD of the footer and of the
    key and the key metadata of the first such column; when none has it,
    it returns [footer_encryption_] itself when [encrypt_the_rest_] is set
    and the null pointer when it is not. *)
Theorem GetColumnEncryptionProperties_spec :
  let path_str := ColumnPath.ToDotString path in
  (uniform_encryption_ this = true ->
   GetColumnEncryptionProperties h path this
   = Returns (h, footer_encryption_ this))
  /\ (uniform_encryption_ this = false ->
      (forall before col after footer,
         columns_ this = (before ++ col :: after)%list ->
         Forall (fun c => ColumnEncryptionProperties.path c <> path_str) before ->
         ColumnEncryptionProperties.path col = path_str ->
         deref h (footer_encryption_ this) = Some footer ->
         exists l,
           h !! l = None
           /\ GetColumnEncryptionProperties h path this
              = Returns
                  (<[l := EncryptionProperties.Build
                            (EncryptionProperties.algorithm footer)
                            (ColumnEncryptionProperties.key col)
                            (ColumnEncryptionProperties.key_metadata col)
                            (EncryptionProperties.aad footer)]> h,
                   Some l))
      /\ (Forall (fun c => ColumnEncryptionProperties.path c <> path_str)
                 (columns_ this) ->
          GetColumnEncryptionProperties h path this
          = Returns (h, if encrypt_the_rest_ this
                        then footer_encryption_ this else None))).
Proof.
  intros path_str. unfold GetColumnEncryptionProperties. fold path_str.
  split; [intros ->; reflexivity |].
  intros ->. split.
  - intros before col after footer Hcols Hbefore Hcol Hfooter.
    rewrite Hcols, (find_column_first _ _ _ _ _ Hbefore Hcol), Hfooter.
    set (v := EncryptionProperties.Build _ _ _ _).
    destruct (alloc_fresh h v) as [Hfresh Hstore].
    exists (snd (alloc h v)). split; [exact Hfresh |].
    destruct (alloc h v) as [h' l]. cbn [fst snd] in *. now subst h'.
  - intros Hnone. rewrite (find_column_none _ _ _ Hnone).
    destruct (encrypt_the_rest_ this); reflexivity.
Qed.

End ResolveColumn.

(** X10. The object returned in uniform mode is the footer's own: an AAD
    set afterwards through [SetupAad] is read through the pointer returned
    before. *)
Lemma SetupAad_seen_through_returned_pointer
    (h : store) (this : FileEncryptionProperties.t) (path : ColumnPath.t)
    (footer : EncryptionProperties.t) (aad : string) :
  FileEncryptionProperties.uniform_encryption_ this = true ->
  deref h (FileEncryptionProperties.footer_encryption_ this) = Some footer ->
  exists p h',
    FileEncryptionProperties.GetColumnEncryptionProperties h path this
    = Returns (h, p)
    /\ FileEncryptionProperties.SetupAad h aad this = Returns h'
    /\ deref h' p = Some (EncryptionProperties.set_aad aad footer).
Proof.
  intros Huniform Hfooter.
  exists (FileEncryptionProperties.footer_encryption_ this).
  unfold FileEncryptionProperties.GetColumnEncryptionProperties,
    FileEncryptionProperties.SetupAad.
  rewrite Huniform.
  destruct (FileEncryptionProperties.footer_encryption_ this) as [l |];
    cbn [deref] in *; [| discriminate].
  rewrite Hfooter. eexists. split; [reflexivity |]. split; [reflexivity |].
  apply lookup_insert_eq.
Qed.

Lemma GetColumnCryptoMetaData_spec_witness :
  let uniform :=
    FileEncryptionProperties.Build (Some 0) true [Examples.col_b] false in
  let listed :=
    FileEncryptionProperties.Build
      (Some 0) false [Examples.col_a; Examples.col_b; Examples.col_d] false in
  let rest :=
    FileEncryptionProperties.Build (Some 0) false [Examples.col_b] true in
  FileEncryptionProperties.GetColumnCryptoMetaData ["x"; "y"] uniform
  = FileEncryptionProperties.OwnObject
      (ColumnEncryptionProperties.Build true "x.y" true "" "")
  /\ (FileEncryptionProperties.GetColumnCryptoMetaData ["b"] listed
      = FileEncryptionProperties.ColumnsElement 1
      /\ FileEncryptionProperties.deref_column
           listed (FileEncryptionProperties.GetColumnCryptoMetaData ["b"] listed)
         = Some Examples.col_b)
  /\ FileEncryptionProperties.GetColumnCryptoMetaData ["x"] listed
     = FileEncryptionProperties.OwnObject
         (ColumnEncryptionProperties.Build false "x" false "" "")
  /\ FileEncryptionProperties.GetColumnCryptoMetaData ["x"] rest
     = FileEncryptionProperties.OwnObject
         (ColumnEncryptionProperties.Build true "x" true "" "").
Proof.
  intros uniform listed rest.
  split; [| split; [| split]].
  - apply (proj1 (GetColumnCryptoMetaData_spec uniform ["x"; "y"])).
    reflexivity.
  - apply (proj1 (proj2 (GetColumnCryptoMetaData_spec listed ["b"]) eq_refl)
             [Examples.col_a] Examples.col_b [Examples.col_d]);
      [reflexivity | | reflexivity].
    constructor; [discriminate | constructor].
  - apply (proj2 (proj2 (GetColumnCryptoMetaData_spec listed ["x"]) eq_refl)).
    repeat (constructor; [discriminate |]). constructor.
  - apply (proj2 (proj2 (GetColumnCryptoMetaData_spec rest ["x"]) eq_refl)).
    repeat (constructor; [discriminate |]). constructor.
Defined.

Lemma GetColumnEncryptionProperties_spec_witness :
  let uniform :=
    FileEncryptionProperties.Build (Some 0) true [Examples.col_b] false in
  let listed :=
    FileEncryptionProperties.Build
      (Some 0) false [Examples.col_a; Examples.col_b; Examples.col_d] false in
  let rest :=
    FileEncryptionProperties.Build (Some 0) false [Examples.col_b] true in
  FileEncryptionProperties.GetColumnEncryptionProperties
    Examples.keyed_store ["x"; "y"] uniform
  = Returns (Examples.keyed_store, Some 0)
  /\ (exists l,
        Examples.keyed_store !! l = None
        /\ FileEncryptionProperties.GetColumnEncryptionProperties
             Examples.keyed_store ["b"] listed
           = Returns
               (<[l := EncryptionProperties.Build
                         Encryption.AES_GCM_V1 Examples.K2 "kid" ""]>
                  Examples.keyed_store,
                Some l))
  /\ FileEncryptionProperties.GetColumnEncryptionProperties
       Examples.keyed_store ["x"] listed
     = Returns (Examples.keyed_store, None)
  /\ FileEncryptionProperties.GetColumnEncryptionProperties
       Examples.keyed_store ["x"] rest
     = Returns (Examples.keyed_store, Some 0).
Proof.
  intros uniform listed rest.
  split; [| split; [| split]].
  - apply (proj1 (GetColumnEncryptionProperties_spec
                    uniform ["x"; "y"] Examples.keyed_store)).
    reflexivity.
  - apply (proj1 (proj2 (GetColumnEncryptionProperties_spec
                           listed ["b"] Examples.keyed_store) eq_refl)
             [Examples.col_a] Examples.col_b [Examples.col_d] Examples.footer);
      [reflexivity | | reflexivity | reflexivity].
    constructor; [discriminate | constructor].
  - apply (proj2 (proj2 (GetColumnEncryptionProperties_spec
                           listed ["x"] Examples.keyed_store) eq_refl)).
    repeat (constructor; [discriminate |]). constructor.
  - apply (proj2 (proj2 (GetColumnEncryptionProperties_spec
                           rest ["x"] Examples.keyed_store) eq_refl)).
    repeat (constructor; [discriminate |]). constructor.
Defined.

(** ** Listed columns that the code mishandles *)

(** C1. The code does not do what the claim says for a listed column that is
    encrypted without a key of its own.  The footer key is [K1], the only
    listed column is [c], made by [ColumnEncryptionProperties(true, "c")]
    and so marked as encrypted with the footer key, and [encrypt_the_rest]
    is set.  The key of every listed column is unset, yet [SetupColumns]
    leaves [uniform_encryption_] false: the comparison of the keys takes
    the empty key for a different key.  Afterwards the column [c] is
    described as encrypted with the footer key, and the key material for it
    has the empty key, while a column that is not listed gets the key
    material of the footer, with the key [K1]. *)
Theorem SetupColumns_keyless_column :
  let columns := [Examples.col_c] in
  let setup :=
    FileEncryptionProperties.SetupColumns
      Examples.keyed_store columns true Examples.keyed in
  EncryptionProperties.key Examples.footer = Examples.K1
  /\ ColumnEncryptionProperties.encrypted_with_footer_key Examples.col_c = true
  /\ Forall (fun col => ColumnEncryptionProperties.key col = Examples.K1
                        \/ ColumnEncryptionProperties.key col = "") columns
  /\ setup
     = (FileEncryptionProperties.Build (Some 0) false columns true, Returns tt)
  /\ FileEncryptionProperties.deref_column
       (fst setup)
       (FileEncryptionProperties.GetColumnCryptoMetaData ["c"] (fst setup))
     = Some (ColumnEncryptionProperties.Build true "c" true "" "")
  /\ FileEncryptionProperties.GetColumnEncryptionProperties
       Examples.keyed_store ["c"] (fst setup)
     = Returns (<[1 := EncryptionProperties.Build
                         Encryption.AES_GCM_V1 "" "" ""]>
                  Examples.keyed_store,
                Some 1)
  /\ FileEncryptionProperties.GetColumnEncryptionProperties
       Examples.keyed_store ["zz"] (fst setup)
     = Returns (Examples.keyed_store, Some 0)
  /\ Examples.keyed_store !! 0 = Some Examples.footer.
Proof.
  cbv zeta. split; [reflexivity |]. split; [reflexivity |].
  split; [constructor; [right; reflexivity | constructor] |].
  repeat split.
Qed.

(** C3. The code does not return a listed column as the claim says: it
    returns a pointer that owns the element of [columns_] itself.  The
    footer key is [K1], the columns [a], [b] and [d] are listed, [b] with a
    key of its own, so that the policy is not uniform.  For the path [b] the
    pointer returned is the element 1 of [columns_], whose value is the
    listed column at the time of the call; the end of that pointer has no
    defined behaviour, and the policy cannot be relied on for a later call.
    The pointers returned for a path that is not listed, and in uniform
    mode, own objects of their own and end without harm. *)
Theorem GetColumnCryptoMetaData_listed_column :
  let this :=
    fst (FileEncryptionProperties.SetupColumns
           Examples.keyed_store
           [Examples.col_a; Examples.col_b; Examples.col_d] false
           Examples.keyed) in
  FileEncryptionProperties.uniform_encryption_ this = false
  /\ FileEncryptionProperties.GetColumnCryptoMetaData ["b"] this
     = FileEncryptionProperties.ColumnsElement 1
  /\ FileEncryptionProperties.deref_column
       this (FileEncryptionProperties.ColumnsElement 1)
     = Some Examples.col_b
  /\ FileEncryptionProperties.release
       (FileEncryptionProperties.GetColumnCryptoMetaData ["b"] this)
     = Undefined
  /\ FileEncryptionProperties.release
       (FileEncryptionProperties.GetColumnCryptoMetaData ["x"] this)
     = Returns tt
  /\ FileEncryptionProperties.release
       (FileEncryptionProperties.GetColumnCryptoMetaData ["b"] Examples.keyed)
     = Returns tt.
Proof. cbv zeta. repeat split. Qed.

(** ** Construction and the length checks *)

Section Construction.

Import FileEncryptionProperties.

Variable indeterminate : bool.
Variable h : store.
Variable algorithm : Encryption.type.

Lemma new_checks_pass (b : build) (key key_metadata : string) :
  DCHECK b (key_length_ok key) = Returns tt ->
  DCHECK b (String.length key_metadata <=? 256)%nat = Returns tt ->
  let footer := EncryptionProperties.Build algorithm key key_metadata "" in
  new b indeterminate h algorithm key key_metadata
  = Returns (fst (alloc h footer),
             Build (Some (snd (alloc h footer))) (negb (empty key)) []
                   indeterminate).
Proof.
  intros Hkey Hmd footer. unfold new. rewrite Hkey. cbn [bind].
  destruct (negb (empty key_metadata)); [rewrite Hmd |]; cbn [bind];
    fold footer; destruct (alloc h footer); reflexivity.
Qed.

Lemma new_key_check_fails (key key_metadata : string) :
  key_length_ok key = false ->
  new Debug indeterminate h algorithm key key_metadata = CheckFailed.
Proof. intros Hkey. unfold new, DCHECK. rewrite Hkey. reflexivity. Qed.

Lemma new_metadata_check_fails (key key_metadata : string) :
  key_length_ok key = true ->
  256 < String.length key_metadata ->
  new Debug indeterminate h algorithm key key_metadata = CheckFailed.
Proof.
  intros Hkey Hmd. unfold new, DCHECK. rewrite Hkey. cbn [bind].
  destruct key_metadata as [| c key_metadata]; [cbn in Hmd; lia |].
  cbn [empty negb].
  apply Nat.leb_gt in Hmd. rewrite Hmd. reflexivity.
Qed.

(** C10. When the constructor returns for a footer key that is not empty
    (in a build without assertions it always does; in a debug build it
    does for a key of 16, 24 or 32 bytes and key metadata of at most 256
    bytes), the policy is uniform before [SetupColumns] is ever called:
    for every path [GetColumnCryptoMetaData] returns an object encrypted
    with the footer key and [GetColumnEncryptionProperties] returns the
    pointer to the footer's key material, which the constructor has just
    allocated. *)
Theorem new_is_uniform (b : build) (key key_metadata : string) :
  key <> "" ->
  (b = Debug ->
   key_length_ok key = true /\ String.length key_metadata <= 256) ->
  exists h' this l,
    new b indeterminate h algorithm key key_metadata = Returns (h', this)
    /\ h !! l = None
    /\ h' = <[l := EncryptionProperties.Build algorithm key key_metadata ""]> h
    /\ footer_encryption_ this = Some l
    /\ uniform_encryption_ this = true
    /\ columns_ this = []
    /\ forall path : ColumnPath.t,
         GetColumnCryptoMetaData path this
         = OwnObject (ColumnEncryptionProperties.Build
                        true (ColumnPath.ToDotString path) true "" "")
         /\ GetColumnEncryptionProperties h' path this = Returns (h', Some l).
Proof.
  intros Hkey Hdebug.
  set (footer := EncryptionProperties.Build algorithm key key_metadata "").
  destruct (alloc_fresh h footer) as [Hfresh Hstore].
  exists (fst (alloc h footer)),
         (Build (Some (snd (alloc h footer))) (negb (empty key)) [] indeterminate),
         (snd (alloc h footer)).
  split.
  - apply new_checks_pass; destruct b; try reflexivity;
      destruct (Hdebug eq_refl) as [Hlen Hmd]; unfold DCHECK.
    + now rewrite Hlen.
    + apply Nat.leb_le in Hmd. now rewrite Hmd.
  - split; [exact Hfresh |]. split; [exact Hstore |].
    split; [reflexivity |].
    apply empty_negb in Hkey.
    split; [exact Hkey |]. split; [reflexivity |].
    intros path.
    unfold GetColumnCryptoMetaData, GetColumnEncryptionProperties.
    cbn [uniform_encryption_ footer_encryption_]. rewrite Hkey.
    split; reflexivity.
Qed.

End Construction.

Lemma new_is_uniform_witness :
  exists h' this l,
    FileEncryptionProperties.new
      Debug true Examples.unkeyed_store Encryption.AES_GCM_V1 Examples.K2 "kid"
    = Returns (h', this)
    /\ Examples.unkeyed_store !! l = None
    /\ h' = <[l := EncryptionProperties.Build
                     Encryption.AES_GCM_V1 Examples.K2 "kid" ""]>
              Examples.unkeyed_store
    /\ FileEncryptionProperties.footer_encryption_ this = Some l
    /\ FileEncryptionProperties.uniform_encryption_ this = true
    /\ FileEncryptionProperties.columns_ this = []
    /\ forall path : ColumnPath.t,
         FileEncryptionProperties.GetColumnCryptoMetaData path this
         = FileEncryptionProperties.OwnObject
             (ColumnEncryptionProperties.Build
                true (ColumnPath.ToDotString path) true "" "")
         /\ FileEncryptionProperties.GetColumnEncryptionProperties h' path this
            = Returns (h', Some l).
Proof.
  apply (new_is_uniform true Examples.unkeyed_store Encryption.AES_GCM_V1
                        Debug Examples.K2 "kid").
  - discriminate.
  - intros _. split; [reflexivity | cbn; lia].
Defined.

Section KeyLengthChecks.

Import FileDecryptionProperties.

Lemma SetColumnKey_check_passes (b : build) (paths : list string)
    (key : string) (this : t) :
  DCHECK b (key_length_ok key) = Returns tt ->
  SetColumnKey b paths key this
  = Returns (Build (footer_key_ this) (aad_ this)
                   (<[ColumnPath.ToDotString paths := key]> (column_keys_ this))
                   (key_retriever_ this)).
Proof. intros Hkey. unfold SetColumnKey. rewrite Hkey. reflexivity. Qed.

Lemma SetColumnKey_check_fails (paths : list string) (key : string) (this : t) :
  key_length_ok key = false ->
  SetColumnKey Debug paths key this = CheckFailed.
Proof. intros Hkey. unfold SetColumnKey, DCHECK. rewrite Hkey. reflexivity. Qed.

(** C8, as the code has it.  The lengths are checked by [DCHECK].  In a
    debug build, for a key that is not empty and whose length is not 16, 24
    or 32, the constructor of [FileEncryptionProperties] and [SetColumnKey]
    stop on the failed assertion, and no exception is thrown; for a key of
    16, 24 or 32 bytes [SetColumnKey] registers the key, and the
    constructor stops on key metadata of more than 256 bytes and returns
    otherwise.  In a build with [NDEBUG] nothing is checked: the
    constructor returns and [SetColumnKey] registers the key, for every key
    and every key metadata. *)
Theorem key_length_checks (key key_metadata : string) :
  (key <> "" -> key_length_ok key = false ->
   (forall indeterminate h algorithm md,
      FileEncryptionProperties.new Debug indeterminate h algorithm key md
      = CheckFailed)
   /\ (forall paths this, SetColumnKey Debug paths key this = CheckFailed))
  /\ (key_length_ok key = true ->
      (forall indeterminate h algorithm,
         256 < String.length key_metadata ->
         FileEncryptionProperties.new
           Debug indeterminate h algorithm key key_metadata
         = CheckFailed)
      /\ (forall indeterminate h algorithm,
            String.length key_metadata <= 256 ->
            exists h' policy,
              FileEncryptionProperties.new
                Debug indeterminate h algorithm key key_metadata
              = Returns (h', policy))
      /\ (forall paths this,
            SetColumnKey Debug paths key this
            = Returns (Build (footer_key_ this) (aad_ this)
                             (<[ColumnPath.ToDotString paths := key]>
                                (column_keys_ this))
                             (key_retriever_ this))))
  /\ (forall indeterminate h algorithm,
        exists h' policy,
          FileEncryptionProperties.new
            NDEBUG indeterminate h algorithm key key_metadata
          = Returns (h', policy))
  /\ (forall paths this,
        SetColumnKey NDEBUG paths key this
        = Returns (Build (footer_key_ this) (aad_ this)
                         (<[ColumnPath.ToDotString paths := key]>
                            (column_keys_ this))
                         (key_retriever_ this))).
Proof.
  split; [| split; [| split]].
  - intros _ Hbad. split.
    + intros. now apply new_key_check_fails.
    + intros. now apply SetColumnKey_check_fails.
  - intros Hok. split; [| split].
    + intros. now apply new_metadata_check_fails.
    + intros indeterminate h algorithm Hmd. do 2 eexists.
      apply new_checks_pass; unfold DCHECK.
      * now rewrite Hok.
      * apply Nat.leb_le in Hmd. now rewrite Hmd.
    + intros. apply SetColumnKey_check_passes. unfold DCHECK.
      now rewrite Hok.
  - intros. do 2 eexists. now apply new_checks_pass.
  - intros. now apply SetColumnKey_check_passes.
Qed.

End KeyLengthChecks.

Lemma key_length_checks_witness :
  (FileEncryptionProperties.new Debug false ∅ Encryption.AES_GCM_V1 "abc" ""
   = CheckFailed
   /\ FileDecryptionProperties.SetColumnKey
        Debug ["a"; "b"] "abc" Examples.decryption_literal
      = CheckFailed)
  /\ (FileEncryptionProperties.new
        Debug false ∅ Encryption.AES_GCM_V1 Examples.K1 Examples.long_metadata
      = CheckFailed
      /\ (exists h' policy,
            FileEncryptionProperties.new
              Debug false ∅ Encryption.AES_GCM_V1 Examples.K1 "kid"
            = Returns (h', policy))
      /\ FileDecryptionProperties.SetColumnKey
           Debug ["a"; "b"] Examples.K1 Examples.decryption_literal
         = Returns (FileDecryptionProperties.Build
                      Examples.K1 "" {["a.b" := Examples.K1]} None)).
Proof.
  split.
  - destruct (proj1 (key_length_checks "abc" "") ltac:(discriminate) eq_refl)
      as [Hnew Hset].
    split; [apply Hnew | apply Hset].
  - destruct (proj1 (proj2 (key_length_checks Examples.K1 Examples.long_metadata))
                eq_refl) as (Hlong & _ & Hset).
    destruct (proj1 (proj2 (key_length_checks Examples.K1 "kid")) eq_refl)
      as (_ & Hshort & _).
    split; [apply Hlong; vm_compute; lia |].
    split; [apply Hshort; vm_compute; lia |].
    apply Hset.
Defined.

(** C8, as it is stated, fails.  The key "abc" is not empty and its length is
    not 16, 24 or 32: with [NDEBUG] the constructor returns and
    [SetColumnKey] registers the key; in a debug build both stop on the
    assertion, which is no exception, and the constructor stops in the same
    way on the empty footer key. *)
Lemma key_length_unchecked_or_assertion :
  FileEncryptionProperties.new NDEBUG false ∅ Encryption.AES_GCM_V1 "abc" ""
  = Returns ({[0 := EncryptionProperties.Build Encryption.AES_GCM_V1 "abc" "" ""]},
             FileEncryptionProperties.Build (Some 0) true [] false)
  /\ FileDecryptionProperties.SetColumnKey
       NDEBUG ["a"; "b"] "abc" Examples.decryption_literal
     = Returns (FileDecryptionProperties.Build
                  Examples.K1 "" {["a.b" := "abc"]} None)
  /\ FileEncryptionProperties.new
       NDEBUG false ∅ Encryption.AES_GCM_V1 Examples.K1 Examples.long_metadata
     = Returns ({[0 := EncryptionProperties.Build
                         Encryption.AES_GCM_V1 Examples.K1
                         Examples.long_metadata ""]},
                FileEncryptionProperties.Build (Some 0) true [] false)
  /\ FileEncryptionProperties.new Debug false ∅ Encryption.AES_GCM_V1 "abc" ""
     = CheckFailed
  /\ FileEncryptionProperties.new Debug false ∅ Encryption.AES_GCM_V1 "" ""
     = CheckFailed
  /\ (forall b : build,
        ~ throws_ParquetException
            (FileEncryptionProperties.new
               b false ∅ Encryption.AES_GCM_V1 "abc" "")
        /\ ~ throws_ParquetException
              (FileDecryptionProperties.SetColumnKey
                 b ["a"; "b"] "abc" Examples.decryption_literal)).
Proof.
  do 5 (split; [reflexivity |]).
  intros b. split; intros [what Hthrows]; destruct b; discriminate Hthrows.
Qed.

(** ** Scenarios *)

(** Footer key [K1], the column [a] with the key [K1], the rest encrypted:
    the policy is uniform, and a listed and an unlisted path are both
    reported as encrypted with the footer key. *)
Example scenario_uniform :
  let this :=
    fst (FileEncryptionProperties.SetupColumns
           Examples.keyed_store [Examples.col_a] true Examples.keyed) in
  FileEncryptionProperties.uniform_encryption_ this = true
  /\ FileEncryptionProperties.GetColumnCryptoMetaData ["a"] this
     = FileEncryptionProperties.OwnObject
         (ColumnEncryptionProperties.Build true "a" true "" "")
  /\ FileEncryptionProperties.GetColumnCryptoMetaData ["b"] this
     = FileEncryptionProperties.OwnObject
         (ColumnEncryptionProperties.Build true "b" true "" "").
Proof. repeat split. Qed.

(** Footer key [K1], the column [b] with the key [K2], the rest not
    encrypted: the policy is not uniform, the column [b] gets key material
    with [K2], an unlisted column gets the null pointer. *)
Example scenario_column_key :
  let this :=
    fst (FileEncryptionProperties.SetupColumns
           Examples.keyed_store [Examples.col_b] false Examples.keyed) in
  FileEncryptionProperties.uniform_encryption_ this = false
  /\ FileEncryptionProperties.GetColumnEncryptionProperties
       Examples.keyed_store ["b"] this
     = Returns (<[1 := EncryptionProperties.Build
                         Encryption.AES_GCM_V1 Examples.K2 "kid" ""]>
                  Examples.keyed_store,
                Some 1)
  /\ FileEncryptionProperties.GetColumnEncryptionProperties
       Examples.keyed_store ["x"] this
     = Returns (Examples.keyed_store, None).
Proof. repeat split. Qed.

(** No footer key, the column [b] with the key [K2], the rest not encrypted:
    [SetupColumns] returns, and an unlisted column gets the null pointer. *)
Example scenario_null_footer_key :
  FileEncryptionProperties.SetupColumns
    Examples.unkeyed_store [Examples.col_b] false Examples.unkeyed
  = (FileEncryptionProperties.Build (Some 0) false [Examples.col_b] false,
     Returns tt)
  /\ FileEncryptionProperties.GetColumnEncryptionProperties
       Examples.unkeyed_store ["x"]
       (FileEncryptionProperties.Build (Some 0) false [Examples.col_b] false)
     = Returns (Examples.unkeyed_store, None).
Proof. repeat split. Qed.

(** ** FileDecryptionProperties: registering and resolving keys *)

Section RegisterKeys.

Import FileDecryptionProperties.

Lemma DCHECK_passes (b : build) (condition : bool) :
  b = NDEBUG \/ condition = true -> DCHECK b condition = Returns tt.
Proof. intros [-> | ->]; [reflexivity | destruct b; reflexivity]. Qed.

(** X1. A key registered with [SetColumnKey] (in a build without assertions,
    or with a length of 16, 24 or 32) is the key that [GetColumnKey] returns,
    with empty key metadata, for every column path with the same dotted
    form; the paths with another dotted form, the lookups with key metadata,
    the footer key and the AAD are as before. *)
Theorem SetColumnKey_then_GetColumnKey
    (b : build) (paths : list string) (key : string) (this : t) :
  b = NDEBUG \/ key_length_ok key = true ->
  exists this',
    SetColumnKey b paths key this = Returns this'
    /\ (forall columnPath : ColumnPath.t,
          ColumnPath.ToDotString columnPath = ColumnPath.ToDotString paths ->
          GetColumnKey columnPath "" this' = Returns key)
    /\ (forall columnPath : ColumnPath.t,
          ColumnPath.ToDotString columnPath <> ColumnPath.ToDotString paths ->
          GetColumnKey columnPath "" this' = GetColumnKey columnPath "" this)
    /\ (forall (columnPath : ColumnPath.t) key_metadata,
          key_metadata <> "" ->
          GetColumnKey columnPath key_metadata this'
          = GetColumnKey columnPath key_metadata this)
    /\ (forall key_metadata,
          GetFooterKey key_metadata this' = GetFooterKey key_metadata this)
    /\ GetAad this' = GetAad this.
Proof.
  intros Hcheck. eexists. split.
  - apply SetColumnKey_check_passes. now apply DCHECK_passes.
  - unfold GetColumnKey, GetFooterKey, GetAad.
    cbn [column_keys_ key_retriever_ footer_key_ aad_ empty].
    split; [| split; [| split; [| split]]].
    + intros columnPath ->. now rewrite lookup_insert_eq.
    + intros columnPath Hother. rewrite lookup_insert_ne by congruence.
      reflexivity.
    + intros columnPath key_metadata Hmd. apply empty_false in Hmd.
      now rewrite Hmd.
    + reflexivity.
    + reflexivity.
Qed.

(** X2. Registrations compose as assignments to a map.  For two paths with
    different dotted forms, the two orders of registration have the same
    outcome, whatever the keys and the build; for two paths with the same
    dotted form the later registration replaces the earlier one. *)
Theorem SetColumnKey_twice
    (b : build) (paths1 paths2 : list string) (key1 key2 : string) (this : t) :
  (ColumnPath.ToDotString paths1 <> ColumnPath.ToDotString paths2 ->
   OutcomeMonad.bind (SetColumnKey b paths1 key1 this)
                     (SetColumnKey b paths2 key2)
   = OutcomeMonad.bind (SetColumnKey b paths2 key2 this)
                       (SetColumnKey b paths1 key1))
  /\ (ColumnPath.ToDotString paths1 = ColumnPath.ToDotString paths2 ->
      b = NDEBUG \/ key_length_ok key1 = true ->
      OutcomeMonad.bind (SetColumnKey b paths1 key1 this)
                        (SetColumnKey b paths2 key2)
      = SetColumnKey b paths2 key2 this).
Proof.
  split.
  - intros Hpaths. unfold SetColumnKey, DCHECK.
    destruct b, (key_length_ok key1), (key_length_ok key2);
      cbn [OutcomeMonad.bind footer_key_ aad_ column_keys_ key_retriever_];
      try reflexivity; do 2 f_equal; now apply insert_insert_ne.
  - intros Hpaths Hcheck. unfold SetColumnKey.
    rewrite (DCHECK_passes _ _ Hcheck).
    cbn [OutcomeMonad.bind footer_key_ aad_ column_keys_ key_retriever_].
    unfold DCHECK.
    destruct b, (key_length_ok key2);
      cbn [OutcomeMonad.bind]; try reflexivity;
      rewrite Hpaths; do 2 f_equal; apply insert_insert_eq.
Qed.

(** X3. A policy constructed from a literal footer key (in a build without
    assertions, or with a key of 16, 24 or 32 bytes) returns that key for the
    footer with empty key metadata, has no column key, and throws a
    [ParquetException] for every lookup with key metadata, as it has no key
    retriever.  In a debug build the constructor stops on the assertion for
    every other key, the empty key included. *)
Theorem new_literal_footer_key (b : build) (footer_key : string) :
  (b = NDEBUG \/ key_length_ok footer_key = true ->
   exists this,
     new b footer_key = Returns this
     /\ GetFooterKey "" this = Returns footer_key
     /\ (forall columnPath : ColumnPath.t,
           GetColumnKey columnPath "" this = Throws std_out_of_range)
     /\ (forall (columnPath : ColumnPath.t) key_metadata,
           key_metadata <> "" ->
           throws_ParquetException (GetColumnKey columnPath key_metadata this)
           /\ throws_ParquetException (GetFooterKey key_metadata this)))
  /\ (b = Debug -> key_length_ok footer_key = false ->
      new b footer_key = CheckFailed).
Proof.
  split.
  - intros Hcheck. eexists. split.
    + unfold new. rewrite (DCHECK_passes _ _ Hcheck). reflexivity.
    + split; [reflexivity |]. split.
      * intros columnPath. unfold GetColumnKey.
        cbn [empty column_keys_]. now rewrite lookup_empty.
      * intros columnPath key_metadata Hmd. apply empty_false in Hmd.
        unfold GetColumnKey, GetFooterKey. rewrite Hmd.
        split; eexists; reflexivity.
  - intros -> Hbad. unfold new, DCHECK. now rewrite Hbad.
Qed.

(** X4. The two sources of keys never mix.  With key metadata that is not
    empty, the outcome of [GetColumnKey] depends on the key retriever and on
    the metadata alone: the path and the registered column keys are not
    looked at, so a key registered for the path is not used.  With empty key
    metadata it depends on the registered keys and on the dotted form of the
    path alone: the key retriever is not called, so a path without a
    registered key is not resolved through the retriever. *)
Theorem GetColumnKey_sources_do_not_mix
    (this1 this2 : t) (path1 path2 : ColumnPath.t) (key_metadata : string) :
  (key_metadata <> "" ->
   key_retriever_ this1 = key_retriever_ this2 ->
   GetColumnKey path1 key_metadata this1 = GetColumnKey path2 key_metadata this2)
  /\ (column_keys_ this1 = column_keys_ this2 ->
      ColumnPath.ToDotString path1 = ColumnPath.ToDotString path2 ->
      GetColumnKey path1 "" this1 = GetColumnKey path2 "" this2).
Proof.
  unfold GetColumnKey. split.
  - intros Hmd Hretriever. apply empty_false in Hmd.
    now rewrite Hmd, Hretriever.
  - intros Hkeys Hpath. cbn [empty]. now rewrite Hkeys, Hpath.
Qed.

(** X5. A policy constructed from a key retriever has the empty string as
    footer key: [GetFooterKey] with empty key metadata returns the empty
    string and does not fail, also after an AAD has been set and a column
    key has been registered. *)
Theorem new_retriever_footer_key
    (key_retriever : option DecryptionKeyRetriever.t) (b : build)
    (aad : string) (paths : list string) (key : string) :
  b = NDEBUG \/ key_length_ok key = true ->
  GetFooterKey "" (new_retriever key_retriever) = Returns ""
  /\ GetFooterKey "" (SetAad aad (new_retriever key_retriever)) = Returns ""
  /\ exists this,
       SetColumnKey b paths key (SetAad aad (new_retriever key_retriever))
       = Returns this
       /\ GetFooterKey "" this = Returns "".
Proof.
  intros Hcheck. split; [reflexivity |]. split; [reflexivity |].
  eexists. split.
  - apply SetColumnKey_check_passes. now apply DCHECK_passes.
  - reflexivity.
Qed.

End RegisterKeys.

Lemma SetColumnKey_then_GetColumnKey_witness :
  exists this',
    FileDecryptionProperties.SetColumnKey
      Debug ["a"; "b"] Examples.K2 Examples.decryption_literal
    = Returns this'
    /\ FileDecryptionProperties.GetColumnKey ["a.b"] "" this'
       = Returns Examples.K2
    /\ FileDecryptionProperties.GetColumnKey ["a"] "" this'
       = Throws std_out_of_range.
Proof.
  destruct (SetColumnKey_then_GetColumnKey
              Debug ["a"; "b"] Examples.K2 Examples.decryption_literal
              (or_intror eq_refl))
    as (this' & Hset & Hsame & Hother & _).
  exists this'. split; [exact Hset |]. split.
  - apply Hsame. reflexivity.
  - rewrite Hother by discriminate. reflexivity.
Defined.

Lemma SetColumnKey_twice_witness :
  OutcomeMonad.bind
    (FileDecryptionProperties.SetColumnKey
       Debug ["a"] Examples.K1 Examples.decryption_literal)
    (FileDecryptionProperties.SetColumnKey Debug ["b"] Examples.K2)
  = OutcomeMonad.bind
      (FileDecryptionProperties.SetColumnKey
         Debug ["b"] Examples.K2 Examples.decryption_literal)
      (FileDecryptionProperties.SetColumnKey Debug ["a"] Examples.K1)
  /\ OutcomeMonad.bind
       (FileDecryptionProperties.SetColumnKey
          Debug ["a"; "b"] Examples.K1 Examples.decryption_literal)
       (FileDecryptionProperties.SetColumnKey Debug ["a.b"] Examples.K2)
     = FileDecryptionProperties.SetColumnKey
         Debug ["a.b"] Examples.K2 Examples.decryption_literal.
Proof.
  split.
  - apply (proj1 (SetColumnKey_twice Debug ["a"] ["b"] Examples.K1 Examples.K2
                                     Examples.decryption_literal)).
    discriminate.
  - apply (proj2 (SetColumnKey_twice Debug ["a"; "b"] ["a.b"]
                                     Examples.K1 Examples.K2
                                     Examples.decryption_literal));
      [reflexivity | right; reflexivity].
Defined.

Lemma new_literal_footer_key_witness :
  (exists this,
     FileDecryptionProperties.new Debug Examples.K1 = Returns this
     /\ FileDecryptionProperties.GetFooterKey "" this = Returns Examples.K1
     /\ throws_ParquetException
          (FileDecryptionProperties.GetFooterKey "kid" this))
  /\ FileDecryptionProperties.new Debug "" = CheckFailed.
Proof.
  split.
  - destruct (proj1 (new_literal_footer_key Debug Examples.K1)
                (or_intror eq_refl))
      as (this & Hnew & Hfooter & _ & Hmetadata).
    exists this. split; [exact Hnew |]. split; [exact Hfooter |].
    apply (Hmetadata [] "kid"). discriminate.
  - apply (proj2 (new_literal_footer_key Debug "")); reflexivity.
Defined.

Lemma GetColumnKey_sources_do_not_mix_witness :
  FileDecryptionProperties.GetColumnKey ["a"; "b"] "kid" Examples.decryption
  = FileDecryptionProperties.GetColumnKey
      ["z"] "kid" (FileDecryptionProperties.new_retriever (Some Examples.retriever))
  /\ FileDecryptionProperties.GetColumnKey ["a"; "b"] "" Examples.decryption
     = FileDecryptionProperties.GetColumnKey
         ["a.b"] ""
         (FileDecryptionProperties.Build "" "" {["a.b" := Examples.K1]} None).
Proof.
  split.
  - apply (proj1 (GetColumnKey_sources_do_not_mix
                    Examples.decryption
                    (FileDecryptionProperties.new_retriever
                       (Some Examples.retriever))
                    ["a"; "b"] ["z"] "kid"));
      [discriminate | reflexivity].
  - apply (proj2 (GetColumnKey_sources_do_not_mix
                    Examples.decryption
                    (FileDecryptionProperties.Build
                       "" "" {["a.b" := Examples.K1]} None)
                    ["a"; "b"] ["a.b"] "")); reflexivity.
Defined.

Lemma new_retriever_footer_key_witness :
  exists this,
    FileDecryptionProperties.SetColumnKey
      Debug ["a"] Examples.K1
      (FileDecryptionProperties.SetAad
         "aad" (FileDecryptionProperties.new_retriever (Some Examples.retriever)))
    = Returns this
    /\ FileDecryptionProperties.GetFooterKey "" this = Returns "".
Proof.
  apply (new_retriever_footer_key
           (Some Examples.retriever) Debug "aad" ["a"] Examples.K1).
  right. reflexivity.
Defined.

(** ** FileEncryptionProperties: more about SetupColumns *)

Section SetupColumnsOutcome.

Import FileEncryptionProperties.

Lemma keys_present_or_missing (columns : list ColumnEncryptionProperties.t) :
  Forall (fun col => ColumnEncryptionProperties.encrypted col = true ->
                     ColumnEncryptionProperties.key col <> "") columns
  \/ Exists (fun col => ColumnEncryptionProperties.encrypted col = true
                        /\ ColumnEncryptionProperties.key col = "") columns.
Proof.
  induction columns as [| col columns [IH | IH]].
  - left. constructor.
  - destruct (ColumnEncryptionProperties.encrypted col) eqn:He.
    + destruct (ColumnEncryptionProperties.key col) as [| c k] eqn:Hk.
      * right. left. now rewrite He, Hk.
      * left. constructor; [| exact IH]. rewrite Hk. discriminate.
    + left. constructor; [| exact IH]. rewrite He. discriminate.
  - right. now right.
Qed.

Lemma none_encrypted_or_some (columns : list ColumnEncryptionProperties.t) :
  forallb (fun col => negb (ColumnEncryptionProperties.encrypted col)) columns
  = false
  <-> Exists (fun col => ColumnEncryptionProperties.encrypted col = true) columns.
Proof.
  induction columns as [| col columns IH]; cbn [forallb].
  - split; [discriminate | intros H; inversion H].
  - destruct (ColumnEncryptionProperties.encrypted col) eqn:He; cbn [negb andb].
    + split; [intros _; now left | reflexivity].
    + rewrite IH. split.
      * intros H. now right.
      * intros H. inversion H as [? ? Hhd | ? ? Htl]; subst;
          [congruence | exact Htl].
Qed.

(** X6. With an empty footer key, [SetupColumns] returns exactly when
    [encrypt_the_rest] is false, every column marked encrypted has a key
    that is not empty, and at least one column is marked encrypted; in every
    other case it throws.  Whatever the outcome, it leaves
    [uniform_encryption_] as it was. *)
Theorem SetupColumns_null_footer_key_returns
    (h : store) (this : t) (footer : EncryptionProperties.t)
    (columns : list ColumnEncryptionProperties.t) (encrypt_the_rest : bool) :
  deref h (footer_encryption_ this) = Some footer ->
  EncryptionProperties.key footer = "" ->
  (snd (SetupColumns h columns encrypt_the_rest this) = Returns tt
   <-> encrypt_the_rest = false
       /\ Forall (fun col => ColumnEncryptionProperties.encrypted col = true ->
                             ColumnEncryptionProperties.key col <> "") columns
       /\ Exists (fun col => ColumnEncryptionProperties.encrypted col = true)
                 columns)
  /\ (snd (SetupColumns h columns encrypt_the_rest this) = Returns tt
      \/ throws_ParquetException
           (snd (SetupColumns h columns encrypt_the_rest this)))
  /\ uniform_encryption_ (fst (SetupColumns h columns encrypt_the_rest this))
     = uniform_encryption_ this.
Proof.
  intros Hfooter Hkey.
  rewrite (SetupColumns_unkeyed h this footer Hfooter) by assumption.
  cbv zeta. destruct encrypt_the_rest.
  { cbn [fst snd uniform_encryption_].
    split; [| split; [right; eexists; reflexivity | reflexivity]].
    split; [discriminate | intros [H _]; discriminate H]. }
  destruct (keys_present_or_missing columns) as [Hkeys | Hmissing].
  - rewrite (unencrypted_scan_keyed _ _ Hkeys). cbn [andb].
    destruct (forallb _ columns) eqn:Hnone; cbn [fst snd uniform_encryption_].
    + split; [| split; [right; eexists; reflexivity | reflexivity]].
      split; [discriminate |].
      intros (_ & _ & Hsome). apply none_encrypted_or_some in Hsome.
      congruence.
    + split; [| split; [left; reflexivity | reflexivity]].
      split; [| reflexivity].
      intros _. split; [reflexivity |]. split; [exact Hkeys |].
      now apply none_encrypted_or_some.
  - rewrite (unencrypted_scan_null_key _ _ Hmissing).
    cbn [fst snd uniform_encryption_].
    split; [| split; [right; eexists; reflexivity | reflexivity]].
    split; [discriminate |].
    intros (_ & Hkeys & _). exfalso.
    induction Hmissing as [col columns [He Hk] | col columns _ IH].
    + inversion Hkeys as [| ? ? Hcol _]; subst. now apply Hcol.
    + inversion Hkeys; subst. now apply IH.
Qed.

Lemma SetupColumns_state
    (h : store) (this : t) (columns : list ColumnEncryptionProperties.t)
    (encrypt_the_rest : bool) :
  fst (SetupColumns h columns encrypt_the_rest this)
  = Build (footer_encryption_ this)
          (match deref h (footer_encryption_ this) with
           | Some footer =>
               if negb (empty (EncryptionProperties.key footer))
               then fst (uniform_scan (EncryptionProperties.key footer) columns)
               else uniform_encryption_ this
           | None => uniform_encryption_ this
           end)
          columns encrypt_the_rest.
Proof.
  unfold SetupColumns.
  cbn [footer_encryption_ uniform_encryption_ columns_ encrypt_the_rest_].
  destruct (deref h (footer_encryption_ this)) as [footer |]; [| reflexivity].
  destruct (negb (empty (EncryptionProperties.key footer))); [reflexivity |].
  destruct encrypt_the_rest; [reflexivity |].
  destruct (unencrypted_scan columns true) as [[] | | |]; reflexivity.
Qed.

Lemma SetupColumns_reads
    (h : store) (footer_encryption : shared_ptr) (uniform uniform' : bool)
    (columns0 columns0' columns : list ColumnEncryptionProperties.t)
    (rest0 rest0' encrypt_the_rest : bool) :
  (match deref h footer_encryption with
   | Some footer =>
       negb (empty (EncryptionProperties.key footer)) = false ->
       uniform = uniform'
   | None => uniform = uniform'
   end) ->
  SetupColumns h columns encrypt_the_rest
               (Build footer_encryption uniform columns0 rest0)
  = SetupColumns h columns encrypt_the_rest
                 (Build footer_encryption uniform' columns0' rest0').
Proof.
  unfold SetupColumns.
  cbn [footer_encryption_ uniform_encryption_ columns_ encrypt_the_rest_].
  destruct (deref h footer_encryption) as [footer |].
  - destruct (negb (empty (EncryptionProperties.key footer)));
      [reflexivity |].
    intros ->; reflexivity.
  - intros ->. reflexivity.
Qed.

(** X7. [SetupColumns] assigns before it validates: whatever its outcome, an
    exception included, the policy holds the new list of columns and the new
    flag afterwards, and its footer pointer is the one it had.  A second call
    then has the outcome and leaves the policy that it would without the
    first call. *)
Theorem SetupColumns_overwrites
    (h : store) (this : t)
    (columns1 columns2 : list ColumnEncryptionProperties.t)
    (encrypt_the_rest1 encrypt_the_rest2 : bool) :
  let this1 := fst (SetupColumns h columns1 encrypt_the_rest1 this) in
  columns_ this1 = columns1
  /\ encrypt_the_rest_ this1 = encrypt_the_rest1
  /\ footer_encryption_ this1 = footer_encryption_ this
  /\ SetupColumns h columns2 encrypt_the_rest2 this1
     = SetupColumns h columns2 encrypt_the_rest2 this.
Proof.
  cbv zeta. rewrite SetupColumns_state.
  cbn [columns_ encrypt_the_rest_ footer_encryption_].
  repeat split. destruct this as [footer_encryption uniform columns0 rest0].
  cbn [footer_encryption_ uniform_encryption_].
  apply SetupColumns_reads.
  destruct (deref h footer_encryption) as [footer |]; [| reflexivity].
  now intros ->.
Qed.

End SetupColumnsOutcome.

Lemma SetupColumns_null_footer_key_returns_witness :
  snd (FileEncryptionProperties.SetupColumns
         Examples.unkeyed_store [Examples.col_d; Examples.col_b] false
         Examples.unkeyed) = Returns tt
  /\ FileEncryptionProperties.uniform_encryption_
       (fst (FileEncryptionProperties.SetupColumns
               Examples.unkeyed_store [Examples.col_d; Examples.col_b] false
               Examples.unkeyed)) = false.
Proof.
  destruct (SetupColumns_null_footer_key_returns
              Examples.unkeyed_store Examples.unkeyed Examples.null_footer
              [Examples.col_d; Examples.col_b] false eq_refl eq_refl)
    as (Hiff & _ & Huniform).
  split; [| exact Huniform].
  apply Hiff. split; [reflexivity |]. split.
  - constructor; [discriminate |]. constructor; [discriminate | constructor].
  - right. left. reflexivity.
Defined.

(** ** FileEncryptionProperties: more about resolving a column *)

Section ResolveColumnMore.

Import FileEncryptionProperties.

Lemma find_column_found (path_str : string)
    (columns : list ColumnEncryptionProperties.t) (i j : nat)
    (col : ColumnEncryptionProperties.t) :
  find_column path_str columns i = Some (j, col) ->
  exists before after,
    columns = (before ++ col :: after)%list
    /\ Forall (fun c => ColumnEncryptionProperties.path c <> path_str) before
    /\ ColumnEncryptionProperties.path col = path_str.
Proof.
  revert i. induction columns as [| c columns IH]; intros i; cbn [find_column];
    [discriminate |].
  destruct (String.eqb (ColumnEncryptionProperties.path c) path_str) eqn:E.
  - intros [= <- <-]. exists [], columns. apply String.eqb_eq in E.
    split; [reflexivity |]. split; [constructor | exact E].
  - intros H. destruct (IH _ H) as (before & after & -> & Hbefore & Hcol).
    exists (c :: before), after. apply String.eqb_neq in E.
    split; [reflexivity |]. split; [now constructor | exact Hcol].
Qed.

Lemma find_column_not_found (path_str : string)
    (columns : list ColumnEncryptionProperties.t) (i : nat) :
  find_column path_str columns i = None ->
  Forall (fun c => ColumnEncryptionProperties.path c <> path_str) columns.
Proof.
  revert i. induction columns as [| c columns IH]; intros i; cbn [find_column];
    [constructor |].
  destruct (String.eqb (ColumnEncryptionProperties.path c) path_str) eqn:E;
    [discriminate |].
  intros H. apply String.eqb_neq in E. constructor; [exact E | now apply IH in H].
Qed.

Lemma listed_and_unlisted (path_str : string)
    (before after : list ColumnEncryptionProperties.t)
    (col : ColumnEncryptionProperties.t) :
  ColumnEncryptionProperties.path col = path_str ->
  Forall (fun c => ColumnEncryptionProperties.path c <> path_str)
         (before ++ col :: after)%list ->
  False.
Proof.
  intros Hcol Hall. apply Forall_app in Hall as [_ Hall].
  inversion Hall; subst. contradiction.
Qed.

Variable h : store.
Variable this : t.
Variable footer : EncryptionProperties.t.
Hypothesis Hfooter : deref h (footer_encryption_ this) = Some footer.

(** X9. For a policy whose footer pointer is not null,
    [GetColumnEncryptionProperties] returns the null pointer exactly in one
    case: the policy is not uniform, no listed column has the path and
    [encrypt_the_rest_] is not set.  In that case [GetColumnCryptoMetaData]
    describes the column as not encrypted.  In every case the call
    returns. *)
Theorem GetColumnEncryptionProperties_null (path : ColumnPath.t) :
  let path_str := ColumnPath.ToDotString path in
  let unlisted_plain :=
    uniform_encryption_ this = false
    /\ Forall (fun c => ColumnEncryptionProperties.path c <> path_str)
              (columns_ this)
    /\ encrypt_the_rest_ this = false in
  (exists h' p, GetColumnEncryptionProperties h path this = Returns (h', p))
  /\ ((exists h', GetColumnEncryptionProperties h path this = Returns (h', None))
      <-> unlisted_plain)
  /\ (unlisted_plain ->
      GetColumnCryptoMetaData path this
      = OwnObject (ColumnEncryptionProperties.Build false path_str false "" "")).
Proof.
  intros path_str unlisted_plain. subst unlisted_plain.
  assert (exists l, footer_encryption_ this = Some l) as [l Hl].
  { destruct (footer_encryption_ this) as [l |]; [now exists l | discriminate]. }
  unfold GetColumnEncryptionProperties, GetColumnCryptoMetaData.
  fold path_str. rewrite Hfooter.
  destruct (uniform_encryption_ this).
  { split; [do 2 eexists; reflexivity |]. split.
    - rewrite Hl. split; [intros [h' [=]] | intros [[=] _]].
    - intros [[=] _]. }
  destruct (find_column path_str (columns_ this) 0) as [[i col] |] eqn:Hfind.
  - destruct (find_column_found _ _ _ _ _ Hfind)
      as (before & after & Hcols & Hbefore & Hcol).
    destruct (alloc h _) as [h' p].
    split; [do 2 eexists; reflexivity |]. split.
    + split; [intros [h'' [=]] |].
      intros (_ & Hnone & _). exfalso. rewrite Hcols in Hnone.
      exact (listed_and_unlisted _ _ _ _ Hcol Hnone).
    + intros (_ & Hnone & _). exfalso. rewrite Hcols in Hnone.
      exact (listed_and_unlisted _ _ _ _ Hcol Hnone).
  - apply find_column_not_found in Hfind.
    destruct (encrypt_the_rest_ this).
    + split; [do 2 eexists; reflexivity |]. split.
      * rewrite Hl. split; [intros [h' [=]] | intros (_ & _ & [=])].
      * intros (_ & _ & [=]).
    + split; [do 2 eexists; reflexivity |]. split.
      * split; [intros _; repeat split; assumption |].
        intros _. now exists h.
      * intros _. reflexivity.
Qed.

(** X12. [GetColumnEncryptionProperties] changes no object of the store: the
    store after the call holds every object the store held, unchanged, and at
    most one more, which is then the object returned. *)
Theorem GetColumnEncryptionProperties_store (path : ColumnPath.t) :
  exists h' p,
    GetColumnEncryptionProperties h path this = Returns (h', p)
    /\ (forall l v, h !! l = Some v -> h' !! l = Some v)
    /\ (h' = h
        \/ exists l v, h !! l = None /\ h' = <[l := v]> h /\ p = Some l).
Proof.
  unfold GetColumnEncryptionProperties. rewrite Hfooter.
  destruct (uniform_encryption_ this).
  { exists h, (footer_encryption_ this). split; [reflexivity |].
    split; [tauto | now left]. }
  destruct (find_column _ (columns_ this) 0) as [[i col] |].
  - set (v := EncryptionProperties.Build _ _ _ _).
    destruct (alloc_fresh h v) as [Hfresh Hstore].
    destruct (alloc h v) as [h' l]. cbn [fst snd] in *. subst h'.
    exists (<[l := v]> h), (Some l). split; [reflexivity |]. split.
    + intros l' v' Hl'. rewrite lookup_insert_ne; [exact Hl' | congruence].
    + right. now exists l, v.
  - destruct (encrypt_the_rest_ this);
      [exists h, (footer_encryption_ this) | exists h, None];
      (split; [reflexivity | split; [tauto | now left]]).
Qed.

End ResolveColumnMore.

(** The end of the pointer that [GetColumnCryptoMetaData] returns has no
    defined behaviour exactly when the policy is not uniform and a listed
    column has the path. *)
Lemma release_undefined_when_listed
    (this : FileEncryptionProperties.t) (path : ColumnPath.t) :
  FileEncryptionProperties.release
    (FileEncryptionProperties.GetColumnCryptoMetaData path this) = Undefined
  <-> FileEncryptionProperties.uniform_encryption_ this = false
      /\ Exists (fun c => ColumnEncryptionProperties.path c
                          = ColumnPath.ToDotString path)
                (FileEncryptionProperties.columns_ this).
Proof.
  unfold FileEncryptionProperties.GetColumnCryptoMetaData.
  destruct (FileEncryptionProperties.uniform_encryption_ this).
  { cbn. split; [discriminate | intros [[=] _]]. }
  destruct (FileEncryptionProperties.find_column
              (ColumnPath.ToDotString path)
              (FileEncryptionProperties.columns_ this) 0)
    as [[i col] |] eqn:Hfind.
  - destruct (find_column_found _ _ _ _ _ Hfind)
      as (before & after & -> & _ & Hcol).
    cbn. split; [| reflexivity].
    intros _. split; [reflexivity |].
    apply Exists_app. right. now left.
  - apply find_column_not_found in Hfind.
    split.
    + destruct (FileEncryptionProperties.encrypt_the_rest_ this); discriminate.
    + intros [_ Hlisted]. exfalso.
      apply Exists_exists in Hlisted as (c & Hin & Hc).
      rewrite Forall_forall in Hfind. exact (Hfind c Hin Hc).
Qed.

Section ListedColumn.

Import FileEncryptionProperties.

Lemma GetColumnEncryptionProperties_listed
    (h : store) (this : t) (footer : EncryptionProperties.t)
    (path : ColumnPath.t) (before after : list ColumnEncryptionProperties.t)
    (col : ColumnEncryptionProperties.t) :
  deref h (footer_encryption_ this) = Some footer ->
  uniform_encryption_ this = false ->
  columns_ this = (before ++ col :: after)%list ->
  Forall (fun c => ColumnEncryptionProperties.path c
                   <> ColumnPath.ToDotString path) before ->
  ColumnEncryptionProperties.path col = ColumnPath.ToDotString path ->
  exists p,
    h !! p = None
    /\ GetColumnEncryptionProperties h path this
       = Returns (<[p := EncryptionProperties.Build
                            (EncryptionProperties.algorithm footer)
                            (ColumnEncryptionProperties.key col)
                            (ColumnEncryptionProperties.key_metadata col)
                            (EncryptionProperties.aad footer)]> h,
                  Some p).
Proof.
  intros Hfooter Huniform Hcols Hbefore Hcol.
  unfold GetColumnEncryptionProperties.
  rewrite Huniform, Hcols, (find_column_first _ _ _ _ _ Hbefore Hcol), Hfooter.
  set (v := EncryptionProperties.Build _ _ _ _).
  destruct (alloc_fresh h v) as [Hfresh Hstore].
  exists (snd (alloc h v)). split; [exact Hfresh |].
  destruct (alloc h v) as [h' p]. cbn [fst snd] in *. now subst h'.
Qed.

Lemma new_returns (b : build) (indeterminate : bool) (h0 h : store)
    (algorithm : Encryption.type) (key key_metadata : string) (this : t) :
  new b indeterminate h0 algorithm key key_metadata = Returns (h, this) ->
  exists l,
    h0 !! l = None
    /\ h = <[l := EncryptionProperties.Build algorithm key key_metadata ""]> h0
    /\ this = Build (Some l) (negb (empty key)) [] indeterminate.
Proof.
  unfold new.
  destruct (DCHECK b (key_length_ok key)) as [[] | | |];
    cbn [OutcomeMonad.bind]; try discriminate.
  destruct (if negb (empty key_metadata)
            then DCHECK b (String.length key_metadata <=? 256)%nat
            else Returns tt) as [[] | | |];
    cbn [OutcomeMonad.bind]; try discriminate.
  set (v := EncryptionProperties.Build _ _ _ _).
  destruct (alloc_fresh h0 v) as [Hfresh Hstore].
  destruct (alloc h0 v) as [h' l]. cbn [fst snd] in *.
  intros [= <- <-]. now exists l.
Qed.

(** X8. For a policy made by the constructor on which [SetupColumns] has
    returned, the key material that [GetColumnEncryptionProperties] returns
    for a listed column (the first of the list with its path) has the key of
    that column, the algorithm given to the constructor and an empty AAD:
    in uniform mode because the footer key is that key, otherwise because
    the material is made from the column.  The key is the column's own also
    when that is empty. *)
Theorem listed_column_key
    (b : build) (indeterminate : bool) (h0 h : store)
    (algorithm : Encryption.type) (key key_metadata : string) (this : t)
    (columns before after : list ColumnEncryptionProperties.t)
    (col : ColumnEncryptionProperties.t) (encrypt_the_rest : bool)
    (path : ColumnPath.t) :
  new b indeterminate h0 algorithm key key_metadata = Returns (h, this) ->
  snd (SetupColumns h columns encrypt_the_rest this) = Returns tt ->
  columns = (before ++ col :: after)%list ->
  Forall (fun c => ColumnEncryptionProperties.path c
                   <> ColumnPath.ToDotString path) before ->
  ColumnEncryptionProperties.path col = ColumnPath.ToDotString path ->
  exists h' p material,
    GetColumnEncryptionProperties
      h path (fst (SetupColumns h columns encrypt_the_rest this))
    = Returns (h', Some p)
    /\ h' !! p = Some material
    /\ EncryptionProperties.key material = ColumnEncryptionProperties.key col
    /\ EncryptionProperties.algorithm material = algorithm
    /\ EncryptionProperties.aad material = "".
Proof.
  intros Hnew Hsetup Hcols Hbefore Hcol.
  destruct (new_returns _ _ _ _ _ _ _ _ Hnew) as (l & Hfresh & -> & ->).
  set (footer := EncryptionProperties.Build algorithm key key_metadata "").
  assert (deref (<[l := footer]> h0) (Some l) = Some footer) as Hfooter
      by apply lookup_insert_eq.
  rewrite SetupColumns_state.
  cbn [footer_encryption_ uniform_encryption_]. rewrite Hfooter.
  cbn [EncryptionProperties.key footer].
  destruct (negb (empty key)) eqn:Hkey.
  - destruct (fst (uniform_scan key columns)) eqn:Huniform.
    + apply uniform_scan_true in Huniform. rewrite Hcols in Huniform.
      apply Forall_app in Huniform as [_ Huniform].
      apply Forall_cons in Huniform as [Hkeycol _].
      exists (<[l := footer]> h0), l, footer.
      split; [reflexivity |]. split; [apply lookup_insert_eq |].
      split; [now rewrite Hkeycol | split; reflexivity].
    + destruct (GetColumnEncryptionProperties_listed
                  (<[l := footer]> h0)
                  (Build (Some l) false columns encrypt_the_rest)
                  footer path before after col Hfooter eq_refl Hcols
                  Hbefore Hcol) as (p & _ & Hget).
      do 3 eexists. split; [exact Hget |].
      split; [apply lookup_insert_eq |]. repeat split.
  - destruct (GetColumnEncryptionProperties_listed
                (<[l := footer]> h0)
                (Build (Some l) false columns encrypt_the_rest)
                footer path before after col Hfooter eq_refl Hcols
                Hbefore Hcol) as (p & _ & Hget).
    do 3 eexists. split; [exact Hget |].
    split; [apply lookup_insert_eq |]. repeat split.
Qed.

(** X11. Key material made for a listed column in non-uniform mode is a copy:
    it has the AAD that the footer had when it was made.  An AAD set
    afterwards with [SetupAad] is not in it, while the material made for the
    same column after [SetupAad] is a new object with the new AAD and the
    same key. *)
Theorem SetupAad_after_column_material
    (h : store) (this : t) (footer : EncryptionProperties.t)
    (path : ColumnPath.t) (before after : list ColumnEncryptionProperties.t)
    (col : ColumnEncryptionProperties.t) (aad : string) :
  deref h (footer_encryption_ this) = Some footer ->
  uniform_encryption_ this = false ->
  columns_ this = (before ++ col :: after)%list ->
  Forall (fun c => ColumnEncryptionProperties.path c
                   <> ColumnPath.ToDotString path) before ->
  ColumnEncryptionProperties.path col = ColumnPath.ToDotString path ->
  exists h1 p h2 h3 q earlier later,
    GetColumnEncryptionProperties h path this = Returns (h1, Some p)
    /\ SetupAad h1 aad this = Returns h2
    /\ GetColumnEncryptionProperties h2 path this = Returns (h3, Some q)
    /\ p <> q
    /\ h3 !! p = Some earlier
    /\ h3 !! q = Some later
    /\ EncryptionProperties.aad earlier = EncryptionProperties.aad footer
    /\ EncryptionProperties.aad later = aad
    /\ EncryptionProperties.key later = EncryptionProperties.key earlier.
Proof.
  intros Hfooter Huniform Hcols Hbefore Hcol.
  destruct (footer_encryption_ this) as [l |] eqn:Hl; [| discriminate].
  cbn [deref] in Hfooter.
  assert (deref h (footer_encryption_ this) = Some footer) as Hfooter'
      by now rewrite Hl.
  destruct (GetColumnEncryptionProperties_listed
              h this footer path before after col Hfooter' Huniform Hcols
              Hbefore Hcol) as (p & Hp & Hget1).
  set (earlier := EncryptionProperties.Build
                    (EncryptionProperties.algorithm footer)
                    (ColumnEncryptionProperties.key col)
                    (ColumnEncryptionProperties.key_metadata col)
                    (EncryptionProperties.aad footer)) in *.
  assert (p <> l) as Hpl by congruence.
  set (h1 := <[p := earlier]> h) in *.
  set (h2 := <[l := EncryptionProperties.set_aad aad footer]> h1).
  assert (SetupAad h1 aad this = Returns h2) as Haad.
  { unfold SetupAad. rewrite Hl. subst h1.
    rewrite lookup_insert_ne by congruence. now rewrite Hfooter. }
  assert (deref h2 (footer_encryption_ this)
          = Some (EncryptionProperties.set_aad aad footer)) as Hfooter2.
  { rewrite Hl. apply lookup_insert_eq. }
  destruct (GetColumnEncryptionProperties_listed
              h2 this _ path before after col Hfooter2 Huniform Hcols
              Hbefore Hcol) as (q & Hq & Hget2).
  assert (h2 !! p = Some earlier) as Hp2.
  { subst h2 h1. rewrite lookup_insert_ne by congruence.
    apply lookup_insert_eq. }
  assert (p <> q) as Hpq by congruence.
  do 7 eexists. split; [exact Hget1 |]. split; [exact Haad |].
  split; [exact Hget2 |]. split; [exact Hpq |].
  split; [rewrite lookup_insert_ne by congruence; exact Hp2 |].
  split; [apply lookup_insert_eq |]. repeat split.
Qed.

End ListedColumn.

Lemma listed_column_key_witness :
  exists h' p material,
    FileEncryptionProperties.GetColumnEncryptionProperties
      Examples.keyed_store ["b"]
      (fst (FileEncryptionProperties.SetupColumns
              Examples.keyed_store [Examples.col_a; Examples.col_b] false
              Examples.keyed))
    = Returns (h', Some p)
    /\ h' !! p = Some material
    /\ EncryptionProperties.key material
       = ColumnEncryptionProperties.key Examples.col_b
    /\ EncryptionProperties.algorithm material = Encryption.AES_GCM_V1
    /\ EncryptionProperties.aad material = "".
Proof.
  apply (listed_column_key
           Debug false ∅ Examples.keyed_store Encryption.AES_GCM_V1
           Examples.K1 "" Examples.keyed
           [Examples.col_a; Examples.col_b] [Examples.col_a] []
           Examples.col_b false ["b"]);
    try reflexivity.
  constructor; [discriminate | constructor].
Defined.

Lemma GetColumnEncryptionProperties_null_witness :
  let this :=
    FileEncryptionProperties.Build (Some 0) false [Examples.col_b] false in
  (exists h',
     FileEncryptionProperties.GetColumnEncryptionProperties
       Examples.keyed_store ["x"] this = Returns (h', None))
  /\ FileEncryptionProperties.GetColumnCryptoMetaData ["x"] this
     = FileEncryptionProperties.OwnObject
         (ColumnEncryptionProperties.Build false "x" false "" "").
Proof.
  intros this.
  destruct (GetColumnEncryptionProperties_null
              Examples.keyed_store this Examples.footer eq_refl ["x"])
    as (_ & Hiff & Hplain).
  assert (FileEncryptionProperties.uniform_encryption_ this = false
          /\ Forall (fun c => ColumnEncryptionProperties.path c <> "x")
                    (FileEncryptionProperties.columns_ this)
          /\ FileEncryptionProperties.encrypt_the_rest_ this = false) as H.
  { split; [reflexivity |]. split; [| reflexivity].
    constructor; [discriminate | constructor]. }
  split; [apply Hiff, H | apply Hplain, H].
Defined.

Lemma GetColumnEncryptionProperties_store_witness :
  let this :=
    FileEncryptionProperties.Build (Some 0) false [Examples.col_b] false in
  exists h' p,
    FileEncryptionProperties.GetColumnEncryptionProperties
      Examples.keyed_store ["b"] this = Returns (h', p)
    /\ (forall l v, Examples.keyed_store !! l = Some v -> h' !! l = Some v)
    /\ (h' = Examples.keyed_store
        \/ exists l v,
             Examples.keyed_store !! l = None
             /\ h' = <[l := v]> Examples.keyed_store /\ p = Some l).
Proof.
  intros this.
  apply (GetColumnEncryptionProperties_store
           Examples.keyed_store this Examples.footer eq_refl ["b"]).
Defined.

Lemma SetupAad_after_column_material_witness :
  let this :=
    FileEncryptionProperties.Build (Some 0) false [Examples.col_b] false in
  exists h1 p h2 h3 q earlier later,
    FileEncryptionProperties.GetColumnEncryptionProperties
      Examples.keyed_store ["b"] this = Returns (h1, Some p)
    /\ FileEncryptionProperties.SetupAad h1 "aad" this = Returns h2
    /\ FileEncryptionProperties.GetColumnEncryptionProperties h2 ["b"] this
       = Returns (h3, Some q)
    /\ p <> q
    /\ h3 !! p = Some earlier
    /\ h3 !! q = Some later
    /\ EncryptionProperties.aad earlier
       = EncryptionProperties.aad Examples.footer
    /\ EncryptionProperties.aad later = "aad"
    /\ EncryptionProperties.key later = EncryptionProperties.key earlier.
Proof.
  intros this.
  apply (SetupAad_after_column_material
           Examples.keyed_store this Examples.footer ["b"] [] []
           Examples.col_b "aad"); try reflexivity.
  constructor.
Defined.

Lemma SetupAad_seen_through_returned_pointer_witness :
  exists p h',
    FileEncryptionProperties.GetColumnEncryptionProperties
      Examples.keyed_store ["x"] Examples.keyed
    = Returns (Examples.keyed_store, p)
    /\ FileEncryptionProperties.SetupAad Examples.keyed_store "aad" Examples.keyed
       = Returns h'
    /\ deref h' p = Some (EncryptionProperties.set_aad "aad" Examples.footer).
Proof.
  apply (SetupAad_seen_through_returned_pointer
           Examples.keyed_store Examples.keyed ["x"] Examples.footer "aad");
    reflexivity.
Defined.

(** ** WriterProperties::Builder: build() *)

Section Build.

Import Builder.

Lemma for_each_item_lookup {V : Type} (d : ColumnProperties.t)
    (set : V -> ColumnProperties.t -> ColumnProperties.t)
    (items : list (string * V))
    (column_properties : gmap string ColumnProperties.t) (k : string) :
  NoDup items.*1 ->
  for_each_item d set items column_properties !! k
  = match (list_to_map items : gmap string V) !! k with
    | Some v => Some (set v (default d (column_properties !! k)))
    | None => column_properties !! k
    end.
Proof.
  unfold for_each_item. revert column_properties.
  induction items as [| [k0 v0] items IH]; intros column_properties Hnodup.
  - cbn. now rewrite lookup_empty.
  - cbn [fold_left]. apply NoDup_cons in Hnodup as [Hk0 Hnodup].
    rewrite IH by assumption. rewrite list_to_map_cons.
    unfold set_item. cbn [fst snd].
    destruct (decide (k = k0)) as [-> | Hne].
    + rewrite (not_elem_of_list_to_map_1 items k0 Hk0).
      rewrite !lookup_insert_eq.
      destruct (column_properties !! k0); reflexivity.
    + rewrite !(lookup_insert_ne _ k0 k) by congruence. reflexivity.
Qed.

(** The entry that the four loops of [build] leave for a key. *)
Lemma build_column_properties_lookup (this : t)
    (encodings : list (string * Encoding.type))
    (codecs : list (string * Compression.type))
    (dictionary_enabled statistics_enabled : list (string * bool))
    (k : string) :
  NoDup encodings.*1 -> NoDup codecs.*1 ->
  NoDup dictionary_enabled.*1 -> NoDup statistics_enabled.*1 ->
  let d := default_column_properties_ this in
  let e := (list_to_map encodings : gmap string Encoding.type) !! k in
  let c := (list_to_map codecs : gmap string Compression.type) !! k in
  let de := (list_to_map dictionary_enabled : gmap string bool) !! k in
  let se := (list_to_map statistics_enabled : gmap string bool) !! k in
  build_column_properties
    this encodings codecs dictionary_enabled statistics_enabled !! k
  = match e, c, de, se with
    | None, None, None, None => None
    | _, _, _, _ =>
        Some (ColumnProperties.Build
                (default (ColumnProperties.encoding_ d) e)
                (default (ColumnProperties.codec_ d) c)
                (default (ColumnProperties.dictionary_enabled_ d) de)
                (default (ColumnProperties.statistics_enabled_ d) se)
                (ColumnProperties.max_stats_size_ d)
                (ColumnProperties.encryption_ d))
    end.
Proof.
  intros He Hc Hde Hse d e c de se. unfold build_column_properties.
  rewrite !for_each_item_lookup by assumption. rewrite lookup_empty.
  fold d e c de se.
  destruct d, e, c, de, se; reflexivity.
Qed.

(** X14. What [build()] gives a column: each of the four settings that can
    be given per column is the value given to the dotted form of its path,
    when there is one, and the default of the builder otherwise, each
    setting apart from the others; the maximal size of the statistics is
    always the default of the builder. *)
Theorem build_column_settings (this : t) (path : ColumnPath.t) :
  let k := ColumnPath.ToDotString path in
  let d := default_column_properties_ this in
  let properties := snd (build this) in
  WriterProperties.encoding path properties
  = default (ColumnProperties.encoding d) (encodings_ this !! k)
  /\ WriterProperties.compression path properties
     = default (ColumnProperties.compression d) (codecs_ this !! k)
  /\ WriterProperties.dictionary_enabled path properties
     = default (ColumnProperties.dictionary_enabled d)
               (dictionary_enabled_ this !! k)
  /\ WriterProperties.statistics_enabled path properties
     = default (ColumnProperties.statistics_enabled d)
               (statistics_enabled_ this !! k)
  /\ WriterProperties.max_statistics_size path properties
     = ColumnProperties.max_statistics_size d.
Proof.
  intros k d properties. subst properties.
  unfold WriterProperties.encoding, WriterProperties.compression,
    WriterProperties.dictionary_enabled, WriterProperties.statistics_enabled,
    WriterProperties.max_statistics_size, WriterProperties.column_properties,
    build.
  cbn [snd WriterProperties.column_properties_
       WriterProperties.default_column_properties_].
  fold k.
  rewrite build_column_properties_lookup by apply NoDup_fst_map_to_list.
  cbv zeta. rewrite !list_to_map_to_list. fold d.
  destruct (encodings_ this !! k), (codecs_ this !! k),
    (dictionary_enabled_ this !! k), (statistics_enabled_ this !! k);
    repeat split.
Qed.

(** X15. The properties built do not depend on the order in which the four
    maps of the builder are gone through: with the items of each map in any
    order, the four loops of [build] leave the column properties that
    [build] returns. *)
Theorem build_order_independent (this : t)
    (encodings : list (string * Encoding.type))
    (codecs : list (string * Compression.type))
    (dictionary_enabled statistics_enabled : list (string * bool)) :
  encodings ≡ₚ map_to_list (encodings_ this) ->
  codecs ≡ₚ map_to_list (codecs_ this) ->
  dictionary_enabled ≡ₚ map_to_list (dictionary_enabled_ this) ->
  statistics_enabled ≡ₚ map_to_list (statistics_enabled_ this) ->
  build_column_properties
    this encodings codecs dictionary_enabled statistics_enabled
  = WriterProperties.column_properties_ (snd (build this)).
Proof.
  intros He Hc Hde Hse. apply map_eq. intros k.
  unfold build. cbn [snd WriterProperties.column_properties_].
  assert (forall (V : Type) (m : gmap string V) (items : list (string * V)),
             items ≡ₚ map_to_list m ->
             NoDup items.*1 /\ (list_to_map items : gmap string V) = m)
    as Hitems.
  { intros V m items Hperm.
    assert (NoDup items.*1) as Hnodup.
    { rewrite Hperm. apply NoDup_fst_map_to_list. }
    split; [exact Hnodup |].
    rewrite <- (list_to_map_to_list m).
    now apply list_to_map_proper. }
  destruct (Hitems _ _ _ He) as [Hne Hme].
  destruct (Hitems _ _ _ Hc) as [Hnc Hmc].
  destruct (Hitems _ _ _ Hde) as [Hnde Hmde].
  destruct (Hitems _ _ _ Hse) as [Hnse Hmse].
  rewrite !build_column_properties_lookup
    by (assumption || apply NoDup_fst_map_to_list).
  cbv zeta. rewrite Hme, Hmc, Hmde, Hmse, !list_to_map_to_list.
  reflexivity.
Qed.

End Build.

Section BuilderSetters.

Import Builder.

Lemma build_column_properties_of (this : t) (path : ColumnPath.t) :
  let k := ColumnPath.ToDotString path in
  let d := default_column_properties_ this in
  WriterProperties.column_properties path (snd (build this))
  = ColumnProperties.Build
      (default (ColumnProperties.encoding_ d) (encodings_ this !! k))
      (default (ColumnProperties.codec_ d) (codecs_ this !! k))
      (default (ColumnProperties.dictionary_enabled_ d)
               (dictionary_enabled_ this !! k))
      (default (ColumnProperties.statistics_enabled_ d)
               (statistics_enabled_ this !! k))
      (ColumnProperties.max_stats_size_ d)
      (ColumnProperties.encryption_ d).
Proof.
  intros k d. unfold WriterProperties.column_properties, build.
  cbn [snd WriterProperties.column_properties_
       WriterProperties.default_column_properties_].
  fold k.
  rewrite build_column_properties_lookup by apply NoDup_fst_map_to_list.
  cbv zeta. rewrite !list_to_map_to_list. fold d.
  destruct d, (encodings_ this !! k), (codecs_ this !! k),
    (dictionary_enabled_ this !! k), (statistics_enabled_ this !! k);
    reflexivity.
Qed.

Ltac settle_setter k s :=
  rewrite !build_column_properties_of; cbv zeta;
  cbn [default_column_properties_ encodings_ codecs_ dictionary_enabled_
       statistics_enabled_ assign_default_column_properties];
  try (destruct (decide (k = s)) as [-> | ?];
       [rewrite ?lookup_insert_eq | rewrite ?lookup_insert_ne by congruence]);
  reflexivity.

(** X16. A call that gives a setting to one column acts on the properties
    built as the setter of [ColumnProperties] on the columns whose path has
    that dotted form, and leaves the properties of every other column as
    they are.  A fallback encoding that is a dictionary encoding, that is
    [PLAIN_DICTIONARY] or [RLE_DICTIONARY], is refused: the call throws a
    [ParquetException] and leaves the builder as it was; with every other
    encoding the call returns. *)
Theorem per_column_call (this : t) (s : string) (path : ColumnPath.t)
    (codec : Compression.type) (encoding_type : Encoding.type) :
  let built (b : t) := WriterProperties.column_properties path (snd (build b)) in
  let at_s (f : ColumnProperties.t -> ColumnProperties.t) :=
    if decide (ColumnPath.ToDotString path = s)
    then f (built this) else built this in
  built (compression_at s codec this)
  = at_s (ColumnProperties.set_compression codec)
  /\ built (fst (encoding_at s encoding_type this))
     = (if is_dictionary encoding_type then built this
        else at_s (ColumnProperties.set_encoding encoding_type))
  /\ (is_dictionary encoding_type = true
      <-> encoding_type = Encoding.PLAIN_DICTIONARY
          \/ encoding_type = Encoding.RLE_DICTIONARY)
  /\ (if is_dictionary encoding_type
      then encoding_at s encoding_type this
           = (this,
              Throws (ParquetException
                        "Can't use dictionary encoding as fallback encoding"))
      else snd (encoding_at s encoding_type this) = Returns tt)
  /\ encoding_at_path path encoding_type this
     = encoding_at (ColumnPath.ToDotString path) encoding_type this
  /\ built (enable_dictionary_at s this)
     = at_s (ColumnProperties.set_dictionary_enabled true)
  /\ built (disable_dictionary_at s this)
     = at_s (ColumnProperties.set_dictionary_enabled false)
  /\ built (enable_statistics_at s this)
     = at_s (ColumnProperties.set_statistics_enabled true)
  /\ built (disable_statistics_at s this)
     = at_s (ColumnProperties.set_statistics_enabled false).
Proof.
  intros built at_s. subst built at_s. cbv beta.
  unfold compression_at, encoding_at, enable_dictionary_at,
    disable_dictionary_at, enable_statistics_at, disable_statistics_at,
    assign_dictionary_enabled, assign_statistics_enabled.
  assert (is_dictionary encoding_type = true
          <-> encoding_type = Encoding.PLAIN_DICTIONARY
              \/ encoding_type = Encoding.RLE_DICTIONARY) as Hdictionary.
  { unfold is_dictionary. split.
    - destruct encoding_type; cbn; try discriminate; auto.
    - intros [-> | ->]; reflexivity. }
  destruct (is_dictionary encoding_type) eqn:He; cbn [fst snd];
    (split; [settle_setter (ColumnPath.ToDotString path) s |]);
    (split; [settle_setter (ColumnPath.ToDotString path) s |]);
    (split; [exact Hdictionary |]);
    (split; [reflexivity |]);
    (split; [unfold encoding_at_path, encoding_at; rewrite He; reflexivity |]);
    repeat split; settle_setter (ColumnPath.ToDotString path) s.
Qed.

(** X17. A call that changes a default of the builder acts on the properties
    built as the setter of [ColumnProperties] on the columns that have no
    value of their own for that setting, whatever other settings they have
    and whether these were given before or after the call; the columns with
    a value of their own keep it.  The maximal size of the statistics has no
    value per column and changes for every column. *)
Theorem default_call (this : t) (path : ColumnPath.t)
    (codec : Compression.type) (encoding_type : Encoding.type)
    (max_stats_sz : Z) :
  let k := ColumnPath.ToDotString path in
  let built (b : t) := WriterProperties.column_properties path (snd (build b)) in
  let unless {V : Type} (own : option V)
             (f : ColumnProperties.t -> ColumnProperties.t) :=
    match own with
    | Some _ => built this
    | None => f (built this)
    end in
  built (compression codec this)
  = unless (codecs_ this !! k) (ColumnProperties.set_compression codec)
  /\ built (fst (encoding encoding_type this))
     = (if is_dictionary encoding_type then built this
        else unless (encodings_ this !! k)
                    (ColumnProperties.set_encoding encoding_type))
  /\ built (enable_dictionary this)
     = unless (dictionary_enabled_ this !! k)
              (ColumnProperties.set_dictionary_enabled true)
  /\ built (disable_dictionary this)
     = unless (dictionary_enabled_ this !! k)
              (ColumnProperties.set_dictionary_enabled false)
  /\ built (enable_statistics this)
     = unless (statistics_enabled_ this !! k)
              (ColumnProperties.set_statistics_enabled true)
  /\ built (disable_statistics this)
     = unless (statistics_enabled_ this !! k)
              (ColumnProperties.set_statistics_enabled false)
  /\ built (max_statistics_size max_stats_sz this)
     = ColumnProperties.set_max_statistics_size max_stats_sz (built this).
Proof.
  intros k built unless. subst built unless. cbv beta.
  unfold compression, encoding, enable_dictionary, disable_dictionary,
    enable_statistics, disable_statistics, max_statistics_size.
  fold k.
  destruct (is_dictionary encoding_type); cbn [fst];
    rewrite !build_column_properties_of; cbv zeta; fold k;
    cbn [default_column_properties_ encodings_ codecs_ dictionary_enabled_
         statistics_enabled_ assign_default_column_properties];
    destruct (encodings_ this !! k), (codecs_ this !! k),
      (dictionary_enabled_ this !! k), (statistics_enabled_ this !! k);
    repeat split.
Qed.

End BuilderSetters.

(** ** WriterProperties::Builder: what sequences of calls keep *)

Section Reachable.

Local Abbreviation no_dictionary_fallback this :=
  (Builder.is_dictionary
     (ColumnProperties.encoding_ (Builder.default_column_properties_ this))
   = false
   /\ forall k e, Builder.encodings_ this !! k = Some e ->
                  Builder.is_dictionary e = false).

Lemma constructed_keeps_fallback (h : store) (this : Builder.t)
    (result : outcome (store * FileEncryptionProperties.t)) :
  no_dictionary_fallback this ->
  no_dictionary_fallback
    (snd (fst (Calls.constructed h this
                 (OutcomeMonad.bind result
                    (fun created =>
                       Returns (fst created,
                                Builder.assign_file_encryption
                                  (Some (snd created)) this)))))).
Proof. intros H. destruct result as [[h' fe] | | |]; exact H. Qed.

Lemma encoding_at_keeps_fallback (path : string)
    (encoding_type : Encoding.type) (this : Builder.t) :
  no_dictionary_fallback this ->
  no_dictionary_fallback (fst (Builder.encoding_at path encoding_type this)).
Proof.
  intros [Hdefault Hmap]. unfold Builder.encoding_at.
  destruct (Builder.is_dictionary encoding_type) eqn:He; cbn [fst].
  - split; assumption.
  - split; [exact Hdefault |].
    cbn [Builder.encodings_]. intros k e.
    destruct (decide (path = k)) as [-> | Hne].
    + rewrite lookup_insert_eq. now intros [= <-].
    + rewrite lookup_insert_ne by assumption. apply Hmap.
Qed.

Lemma perform_keeps_fallback (b : build) (bo : byte_order) (c : Calls.call)
    (h : store) (this : Builder.t) :
  no_dictionary_fallback this ->
  no_dictionary_fallback (snd (fst (Calls.perform b bo c h this))).
Proof.
  intros H.
  destruct c; cbn [Calls.perform]; try exact H;
    try (apply constructed_keeps_fallback; exact H);
    unfold Calls.left_by; cbn [fst snd].
  - unfold Builder.encoding.
    destruct (Builder.is_dictionary encoding_type) eqn:He; cbn [fst];
      [exact H |].
    split; [exact He | apply H].
  - now apply encoding_at_keeps_fallback.
  - now apply encoding_at_keeps_fallback.
  - unfold Builder.column_encryption.
    destruct (Builder.file_encryption_ this); exact H.
Qed.

Lemma run_keeps_fallback (b : build) (bo : byte_order)
    (calls : list Calls.call) (h0 h : store) (this0 this : Builder.t) :
  no_dictionary_fallback this0 ->
  Calls.run b bo calls h0 this0 = Some (h, this) ->
  no_dictionary_fallback this.
Proof.
  revert h0 this0.
  induction calls as [| c calls IH]; intros h0 this0 H0; cbn [Calls.run].
  - now intros [= <- <-].
  - pose proof (perform_keeps_fallback b bo c h0 this0 H0) as Hstep.
    destruct (Calls.perform b bo c h0 this0) as [[h1 this1] [[] | e | |]];
      cbn [fst snd] in *; try discriminate; now apply IH.
Qed.

(** X18. No sequence of calls on a new builder makes a dictionary encoding
    the fallback encoding of a column: in the properties built, the encoding
    of every column is neither [PLAIN_DICTIONARY] nor [RLE_DICTIONARY], and
    so differs from the encoding of the dictionary indices. *)
Theorem fallback_encoding_is_not_dictionary
    (b : build) (bo : byte_order) (ext : Externals.t)
    (calls : list Calls.call) (h0 h : store) (this : Builder.t)
    (path : ColumnPath.t) :
  Calls.run b bo calls h0 (Builder.new ext) = Some (h, this) ->
  let properties := snd (Builder.build this) in
  WriterProperties.encoding path properties <> Encoding.PLAIN_DICTIONARY
  /\ WriterProperties.encoding path properties <> Encoding.RLE_DICTIONARY
  /\ WriterProperties.encoding path properties
     <> WriterProperties.dictionary_index_encoding properties.
Proof.
  intros Hrun properties.
  assert (no_dictionary_fallback this) as [Hdefault Hmap].
  { apply (run_keeps_fallback b bo calls h0 h (Builder.new ext));
      [| exact Hrun].
    split; [reflexivity |]. intros k e. cbn [Builder.new Builder.encodings_].
    now rewrite lookup_empty. }
  assert (Builder.is_dictionary (WriterProperties.encoding path properties)
          = false) as Hnot.
  { subst properties. unfold WriterProperties.encoding.
    rewrite build_column_properties_of. cbv zeta.
    cbn [ColumnProperties.encoding ColumnProperties.encoding_].
    destruct (Builder.encodings_ this !! ColumnPath.ToDotString path)
      as [e |] eqn:He; cbn [default]; [exact (Hmap _ e He) | exact Hdefault]. }
  unfold WriterProperties.dictionary_index_encoding.
  repeat split; intros Heq; rewrite Heq in Hnot;
    [| | destruct (WriterProperties.parquet_version_ properties)];
    discriminate Hnot.
Qed.

Lemma perform_without_encryption (b : build) (bo : byte_order)
    (c : Calls.call) (h : store) (this : Builder.t) :
  Calls.is_encryption c = false ->
  Builder.file_encryption_ this = None ->
  exists this' o,
    Calls.perform b bo c h this = ((h, this'), o)
    /\ Builder.file_encryption_ this' = None
    /\ (o = Returns tt \/ exists e, o = Throws e).
Proof.
  intros Hc Hnone.
  destruct c; try discriminate Hc; cbn [Calls.perform];
    unfold Calls.returned, Calls.left_by;
    try (eexists; eexists; split; [reflexivity |];
         split; [exact Hnone | left; reflexivity]).
  - unfold Builder.encoding. destruct (Builder.is_dictionary encoding_type);
      (eexists; eexists; split; [reflexivity |]; split; [exact Hnone |]);
      [right; eexists; reflexivity | left; reflexivity].
  - unfold Builder.encoding_at. destruct (Builder.is_dictionary encoding_type);
      (eexists; eexists; split; [reflexivity |]; split; [exact Hnone |]);
      [right; eexists; reflexivity | left; reflexivity].
  - unfold Builder.encoding_at_path, Builder.encoding_at.
    destruct (Builder.is_dictionary encoding_type);
      (eexists; eexists; split; [reflexivity |]; split; [exact Hnone |]);
      [right; eexists; reflexivity | left; reflexivity].
  - unfold Builder.column_encryption. rewrite Hnone.
    eexists; eexists; split; [reflexivity |]; split; [exact Hnone |].
    right; eexists; reflexivity.
Qed.

Lemma run_without_encryption (b : build) (bo : byte_order)
    (calls : list Calls.call) (h0 : store) (this0 : Builder.t) :
  Forall (fun c => Calls.is_encryption c = false) calls ->
  Builder.file_encryption_ this0 = None ->
  exists this,
    Calls.run b bo calls h0 this0 = Some (h0, this)
    /\ Builder.file_encryption_ this = None.
Proof.
  intros Hcalls. revert this0.
  induction Hcalls as [| c calls Hc _ IH]; intros this0 Hnone.
  - exists this0. split; [reflexivity | exact Hnone].
  - destruct (perform_without_encryption b bo c h0 this0 Hc Hnone)
      as (this1 & o & Hperform & Hnone1 & Ho).
    cbn [Calls.run]. rewrite Hperform.
    destruct Ho as [-> | [e ->]]; cbn [fst snd]; now apply IH.
Qed.

(** X19. Without a call of [encryption], nothing is encrypted: a sequence of
    other calls on a new builder always runs to its end, allocates nothing,
    and the properties built have no file encryption, a null footer
    encryption and, for every column, null encryption properties and null
    key material.  Every [column_encryption] in the sequence throws the
    [ParquetException] "null file encryption" and leaves the builder that
    the calls before it have made as it is. *)
Theorem no_encryption_without_encryption_call
    (b : build) (bo : byte_order) (ext : Externals.t)
    (calls : list Calls.call) (h0 : store) :
  Forall (fun c => Calls.is_encryption c = false) calls ->
  (exists this,
     Calls.run b bo calls h0 (Builder.new ext) = Some (h0, this)
     /\ Builder.file_encryption_ this = None
     /\ let properties := snd (Builder.build this) in
        WriterProperties.file_encryption properties = None
        /\ WriterProperties.footer_encryption properties = None
        /\ forall (path : ColumnPath.t) (h : store),
             WriterProperties.column_encryption_props path properties = None
             /\ WriterProperties.encryption h path properties
                = Returns (h, None))
  /\ (forall before columns encrypt_the_rest after,
        calls
        = (before ++ Calls.column_encryption columns encrypt_the_rest :: after)%list ->
        exists this1,
          Calls.run b bo before h0 (Builder.new ext) = Some (h0, this1)
          /\ Builder.column_encryption h0 columns encrypt_the_rest this1
             = (this1, Throws (ParquetException "null file encryption"))
          /\ Calls.perform
               b bo (Calls.column_encryption columns encrypt_the_rest) h0 this1
             = ((h0, this1), Throws (ParquetException "null file encryption"))).
Proof.
  intros Hcalls. split.
  - destruct (run_without_encryption b bo calls h0 (Builder.new ext)
                                     Hcalls eq_refl) as (this & Hthis & Hnone).
    exists this. split; [exact Hthis |]. split; [exact Hnone |].
    cbv zeta.
    unfold WriterProperties.file_encryption,
      WriterProperties.footer_encryption,
      WriterProperties.column_encryption_props, WriterProperties.encryption,
      Builder.build.
    cbn [snd WriterProperties.parquet_file_encryption_]. rewrite Hnone.
    repeat split.
  - intros before columns encrypt_the_rest after ->.
    apply Forall_app in Hcalls as [Hbefore _].
    destruct (run_without_encryption b bo before h0 (Builder.new ext)
                                     Hbefore eq_refl)
      as (this1 & Hthis1 & Hnone1).
    exists this1. split; [exact Hthis1 |].
    cbn [Calls.perform]. unfold Calls.left_by, Builder.column_encryption.
    rewrite Hnone1. split; reflexivity.
Qed.

End Reachable.

Section BuilderEncryption.

(** X20. [build()] moves the encryption policy out of the builder: the
    properties built hold the policy the builder held, and the builder holds
    none afterwards.  A second [build()] on the same builder gives the same
    properties without file encryption, and [column_encryption] on the
    builder then throws as on a builder on which [encryption] was never
    called. *)
Theorem build_moves_file_encryption (this : Builder.t) :
  let this1 := fst (Builder.build this) in
  let properties1 := snd (Builder.build this) in
  let properties2 := snd (Builder.build this1) in
  WriterProperties.file_encryption properties1 = Builder.file_encryption_ this
  /\ Builder.file_encryption_ this1 = None
  /\ fst (Builder.build this1) = this1
  /\ properties2
     = WriterProperties.Build
         (WriterProperties.pool_ properties1)
         (WriterProperties.dictionary_pagesize_limit_ properties1)
         (WriterProperties.write_batch_size_ properties1)
         (WriterProperties.max_row_group_length_ properties1)
         (WriterProperties.pagesize_ properties1)
         (WriterProperties.parquet_version_ properties1)
         (WriterProperties.parquet_created_by_ properties1)
         None
         (WriterProperties.default_column_properties_ properties1)
         (WriterProperties.column_properties_ properties1)
  /\ forall h columns encrypt_the_rest,
       Builder.column_encryption h columns encrypt_the_rest this1
       = (this1, Throws (ParquetException "null file encryption")).
Proof. cbv zeta. repeat split. Qed.

Lemma key_id_metadata_length (bo : byte_order) (key_id : Z) :
  DCHECK Debug
         (String.length (if (key_id =? 0)%Z then ""
                         else object_bytes bo key_id) <=? 256)%nat
  = Returns tt.
Proof.
  destruct (key_id =? 0)%Z; [reflexivity |].
  now rewrite object_bytes_length.
Qed.

(** X21. [encryption(key, key_id)] (in a build without assertions, or with a
    key of 16, 24 or 32 bytes) gives the builder a policy whose footer key
    material has the algorithm [AES_GCM_V1], the key, an empty AAD, and as
    key metadata the empty string when the id is zero and otherwise four
    bytes from which the id is read back; the policy is uniform exactly when
    the key is not empty.  [encryption(key)] is the call with the id
    zero. *)
Theorem encryption_id_footer
    (b : build) (indeterminate : bool) (bo : byte_order) (h : store)
    (key : string) (key_id : Z) (this : Builder.t) :
  (0 <= key_id < 2 ^ 32)%Z ->
  b = NDEBUG \/ key_length_ok key = true ->
  Builder.encryption b indeterminate bo h key this
  = Builder.encryption_id b indeterminate bo h key 0 this
  /\ exists h' this' policy l footer,
       Builder.encryption_id b indeterminate bo h key key_id this = Returns (h', this')
       /\ Builder.file_encryption_ this' = Some policy
       /\ FileEncryptionProperties.footer_encryption_ policy = Some l
       /\ h !! l = None
       /\ h' = <[l := footer]> h
       /\ EncryptionProperties.algorithm footer = Encryption.AES_GCM_V1
       /\ EncryptionProperties.key footer = key
       /\ EncryptionProperties.aad footer = ""
       /\ (key_id = 0%Z -> EncryptionProperties.key_metadata footer = "")
       /\ (key_id <> 0%Z ->
           String.length (EncryptionProperties.key_metadata footer) = 4
           /\ value_of_bytes bo (EncryptionProperties.key_metadata footer)
              = Some key_id)
       /\ FileEncryptionProperties.uniform_encryption_ policy
          = negb (empty key).
Proof.
  intros Hrange Hcheck. split; [reflexivity |].
  unfold Builder.encryption_id, Builder.encryption_algorithm_id,
    FileEncryptionProperties.new_id.
  rewrite !(uint32_id key_id) by assumption.
  set (key_metadata := if (key_id =? 0)%Z then "" else object_bytes bo key_id).
  set (footer := EncryptionProperties.Build
                   Encryption.AES_GCM_V1 key key_metadata "").
  rewrite (new_checks_pass indeterminate h Encryption.AES_GCM_V1 b key
                           key_metadata).
  - cbv zeta. cbn [OutcomeMonad.bind fst snd]. fold footer.
    destruct (alloc_fresh h footer) as [Hfresh Hstore].
    do 5 eexists. split; [reflexivity |].
    split; [reflexivity |]. split; [reflexivity |].
    split; [exact Hfresh |]. split; [exact Hstore |].
    cbn [EncryptionProperties.algorithm EncryptionProperties.key
         EncryptionProperties.aad EncryptionProperties.key_metadata footer
         FileEncryptionProperties.uniform_encryption_].
    do 3 (split; [reflexivity |]). split; [| split; [| reflexivity]].
    + intros ->. reflexivity.
    + intros Hnz. apply Z.eqb_neq in Hnz. subst key_metadata.
      rewrite Hnz. split; [apply object_bytes_length |].
      now apply value_of_object_bytes.
  - now apply DCHECK_passes.
  - destruct b; [apply key_id_metadata_length | reflexivity].
Qed.

End BuilderEncryption.

Lemma per_column_call_witness :
  let this := Builder.new WriterExamples.ext in
  Builder.encoding_at "a" Encoding.RLE_DICTIONARY this
  = (this,
     Throws (ParquetException
               "Can't use dictionary encoding as fallback encoding"))
  /\ snd (Builder.encoding_at "a" WriterExamples.rle this) = Returns tt
  /\ WriterProperties.column_properties
       ["a"] (snd (Builder.build (fst (Builder.encoding_at
                                         "a" WriterExamples.rle this))))
     = ColumnProperties.set_encoding
         WriterExamples.rle
         (WriterProperties.column_properties ["a"] (snd (Builder.build this))).
Proof.
  intros this.
  pose proof (per_column_call this "a" ["a"] WriterExamples.snappy
                              Encoding.RLE_DICTIONARY) as Hrefused.
  pose proof (per_column_call this "a" ["a"] WriterExamples.snappy
                              WriterExamples.rle) as Haccepted.
  cbv zeta in Hrefused, Haccepted.
  destruct Hrefused as (_ & _ & _ & Hthrows & _).
  destruct Haccepted as (_ & Hbuilt & _ & Hreturns & _).
  split; [exact Hthrows |]. split; [exact Hreturns | exact Hbuilt].
Defined.

Lemma build_order_independent_witness :
  let this :=
    Builder.compression_at
      "a" WriterExamples.snappy
      (Builder.compression_at "b" Compression.UNCOMPRESSED
                              (Builder.new WriterExamples.ext)) in
  Builder.build_column_properties
    this [] [("b", Compression.UNCOMPRESSED); ("a", WriterExamples.snappy)]
    [] []
  = WriterProperties.column_properties_ (snd (Builder.build this))
  /\ Builder.build_column_properties
       this [] [("a", WriterExamples.snappy); ("b", Compression.UNCOMPRESSED)]
       [] []
     = WriterProperties.column_properties_ (snd (Builder.build this)).
Proof.
  intros this.
  split; apply (build_order_independent this); try reflexivity;
    vm_compute; first [reflexivity | apply perm_swap].
Defined.

Lemma fallback_encoding_is_not_dictionary_witness :
  let calls :=
    [Calls.encoding Encoding.PLAIN_DICTIONARY;
     Calls.encoding_at "a" Encoding.RLE_DICTIONARY;
     Calls.encoding_at "b" WriterExamples.rle;
     Calls.version ParquetVersion.PARQUET_2_0;
     Calls.encryption false Examples.K1;
     Calls.column_encryption [Examples.col_b] false] in
  exists h this,
    Calls.run Debug LittleEndian calls ∅ (Builder.new WriterExamples.ext)
    = Some (h, this)
    /\ WriterProperties.encoding ["a"] (snd (Builder.build this))
       <> Encoding.PLAIN_DICTIONARY
    /\ WriterProperties.encoding ["a"] (snd (Builder.build this))
       <> Encoding.RLE_DICTIONARY
    /\ WriterProperties.encoding ["a"] (snd (Builder.build this))
       <> WriterProperties.dictionary_index_encoding (snd (Builder.build this)).
Proof.
  intros calls.
  assert (exists h this,
             Calls.run Debug LittleEndian calls ∅
                       (Builder.new WriterExamples.ext) = Some (h, this))
    as (h & this & Hrun) by (vm_compute; eauto).
  exists h, this. split; [exact Hrun |].
  apply (fallback_encoding_is_not_dictionary
           Debug LittleEndian WriterExamples.ext calls ∅ h this ["a"] Hrun).
Defined.

Lemma no_encryption_without_encryption_call_witness :
  let calls :=
    [Calls.compression WriterExamples.snappy;
     Calls.column_encryption [Examples.col_b] true;
     Calls.disable_statistics_at "a"] in
  (exists this,
     Calls.run Debug LittleEndian calls ∅ (Builder.new WriterExamples.ext)
     = Some (∅, this)
     /\ Builder.file_encryption_ this = None
     /\ let properties := snd (Builder.build this) in
        WriterProperties.file_encryption properties = None
        /\ WriterProperties.footer_encryption properties = None
        /\ forall (path : ColumnPath.t) (h : store),
             WriterProperties.column_encryption_props path properties = None
             /\ WriterProperties.encryption h path properties
                = Returns (h, None))
  /\ exists this1,
       Calls.run Debug LittleEndian [Calls.compression WriterExamples.snappy]
                 ∅ (Builder.new WriterExamples.ext)
       = Some (∅, this1)
       /\ Builder.column_encryption ∅ [Examples.col_b] true this1
          = (this1, Throws (ParquetException "null file encryption")).
Proof.
  intros calls.
  assert (Forall (fun c => Calls.is_encryption c = false) calls) as Hcalls
      by repeat constructor.
  destruct (no_encryption_without_encryption_call
              Debug LittleEndian WriterExamples.ext calls ∅ Hcalls)
    as [Hbuilt Hthrows].
  split; [exact Hbuilt |].
  destruct (Hthrows [Calls.compression WriterExamples.snappy]
                    [Examples.col_b] true [Calls.disable_statistics_at "a"]
                    eq_refl)
    as (this1 & Hrun & Hthrow & _).
  exists this1. split; [exact Hrun | exact Hthrow].
Defined.

Lemma encryption_id_footer_witness :
  exists h' this' policy l footer,
    Builder.encryption_id
      Debug false LittleEndian ∅ Examples.K1 258
      (Builder.new WriterExamples.ext)
    = Returns (h', this')
    /\ Builder.file_encryption_ this' = Some policy
    /\ FileEncryptionProperties.footer_encryption_ policy = Some l
    /\ h' !! l = Some footer
    /\ EncryptionProperties.key footer = Examples.K1
    /\ String.length (EncryptionProperties.key_metadata footer) = 4
    /\ value_of_bytes LittleEndian (EncryptionProperties.key_metadata footer)
       = Some 258%Z.
Proof.
  assert (0 <= 258 < 2 ^ 32)%Z as Hrange
      by (split; [discriminate | reflexivity]).
  destruct (proj2 (encryption_id_footer
                     Debug false LittleEndian ∅ Examples.K1 258
                     (Builder.new WriterExamples.ext) Hrange
                     (or_intror eq_refl)))
    as (h' & this' & policy & l & footer & Hcall & Hpolicy & Hl & _ & Hstore
        & _ & Hkey & _ & _ & Hmetadata & _).
  exists h', this', policy, l, footer.
  split; [exact Hcall |]. split; [exact Hpolicy |]. split; [exact Hl |].
  split; [rewrite Hstore; apply lookup_insert_eq |].
  split; [exact Hkey |]. apply Hmetadata. discriminate.
Defined.
